(** * anonymize_data.py: a shallow embedding and its properties

    The script walks JSON documents, replaces the values of five
    sensitive field names by the SHA-256 hex digest of their string
    form, records digest -> original in a mapping shared by the whole
    run, rewrites every file in place and finally saves the mapping
    together with its inverse.

    Modelling conventions.
    - A Python [str] is a Rocq [string] holding the UTF-8 bytes of the
      text, so [.encode('utf-8')] is the list of its bytes.  Everything
      is exact on ASCII text; [repr] keeps bytes above 127 as they are
      (Python escapes the few code points that are not printable).
    - A parsed JSON document is a [JSON] value; numbers are the
      integers ([int]); Python floats are not part of the model.
    - A [dict] is an association list in insertion order whose keys
      are pairwise distinct; [dict_set] is [d[k] = v].
    - [hashlib.sha256] is the FIPS 180-4 function on 32-bit words kept
      in [Z], every addition reduced modulo 2^32.
    - [json.loads], [json.dumps] and [json.dump] are library calls:
      the file processors take them from a [JsonLib] instance, and
      every theorem about files holds for any such instance.
    - The file system is a dictionary from path to content; the shared
      mapping is threaded through every call as explicit state. *)

From Stdlib Require Import ZArith List String Ascii Bool Lia.
From Stdlib Require Import DecimalString.
Import ListNotations.
Local Open Scope string_scope.
Local Open Scope list_scope.
Local Open Scope Z_scope.

(** [a +++ b] is Python's [a + b] on [str]. *)
Infix "+++" := String.append (right associativity, at level 60).

(** ** SHA-256 (hashlib.sha256) *)

Module SHA256.

Definition w32 (x : Z) : Z := x mod 2 ^ 32.
Definition add32 (x y : Z) : Z := (x + y) mod 2 ^ 32.
Definition rotr (n x : Z) : Z :=
  Z.lor (Z.shiftr x n) (w32 (Z.shiftl x (32 - n))).

Definition Ch (x y z : Z) : Z := Z.lxor (Z.land x y) (Z.land (Z.lnot x) z).
Definition Maj (x y z : Z) : Z :=
  Z.lxor (Z.lxor (Z.land x y) (Z.land x z)) (Z.land y z).
Definition bsig0 (x : Z) : Z := Z.lxor (Z.lxor (rotr 2 x) (rotr 13 x)) (rotr 22 x).
Definition bsig1 (x : Z) : Z := Z.lxor (Z.lxor (rotr 6 x) (rotr 11 x)) (rotr 25 x).
Definition ssig0 (x : Z) : Z := Z.lxor (Z.lxor (rotr 7 x) (rotr 18 x)) (Z.shiftr x 3).
Definition ssig1 (x : Z) : Z := Z.lxor (Z.lxor (rotr 17 x) (rotr 19 x)) (Z.shiftr x 10).

(** The constants: the first 32 bits of the fractional parts of the
    cube roots (K) and square roots (H0) of the first primes. *)
Definition is_prime (n : nat) : bool :=
  forallb (fun d => negb (n mod d =? 0)%nat) (seq 2 (n - 2)).

Definition primes : list Z :=
  map Z.of_nat (filter is_prime (seq 2 310)).

(** The largest [r] below 2^36 with [r^3 <= n]. *)
Definition cube_root (n : Z) : Z :=
  fold_left (fun r b => let r' := r + 2 ^ Z.of_nat b in
                        if r' * r' * r' <=? n then r' else r)
            (rev (seq 0 36)) 0.

Definition K : list Z :=
  Eval vm_compute in map (fun p => w32 (cube_root (p * 2 ^ 96))) primes.

(** The eight working variables a..h, also the chaining value. *)
Record state := mkState
  { sa : Z; sb : Z; sc : Z; sd : Z; se : Z; sf : Z; sg : Z; sh : Z }.

Definition frac_sqrt (i : nat) : Z := w32 (Z.sqrt (nth i primes 0 * 2 ^ 64)).

Definition H0 : state :=
  Eval vm_compute in
    mkState (frac_sqrt 0) (frac_sqrt 1) (frac_sqrt 2) (frac_sqrt 3)
            (frac_sqrt 4) (frac_sqrt 5) (frac_sqrt 6) (frac_sqrt 7).

(** Padding: one 0x80 byte, zeros up to 56 modulo 64, then the bit
    length as a big-endian 64-bit integer. *)
Definition be_bytes (n : nat) (x : Z) : list Z :=
  map (fun i => Z.land (Z.shiftr x (8 * Z.of_nat i)) 255) (rev (seq 0 n)).

Definition pad (msg : list Z) : list Z :=
  let len := Z.of_nat (List.length msg) in
  let zeros := Z.to_nat ((55 - len) mod 64) in
  msg ++ [128] ++ repeat 0 zeros ++ be_bytes 8 (8 * len).

Fixpoint words (bytes : list Z) : list Z :=
  match bytes with
  | b0 :: b1 :: b2 :: b3 :: rest =>
      (b0 * 2 ^ 24 + b1 * 2 ^ 16 + b2 * 2 ^ 8 + b3) :: words rest
  | _ => []
  end.

(** Message schedule: [window] holds W[t-16..t-1]. *)
Fixpoint schedule (n : nat) (window : list Z) : list Z :=
  match n with
  | O => []
  | S n' =>
      let w := add32 (add32 (ssig1 (nth 14 window 0)) (nth 9 window 0))
                     (add32 (ssig0 (nth 1 window 0)) (nth 0 window 0)) in
      w :: schedule n' (tl window ++ [w])
  end.

Definition round (s : state) (kw : Z * Z) : state :=
  let '(k, w) := kw in
  let t1 := add32 (add32 (add32 (sh s) (bsig1 (se s)))
                         (add32 (Ch (se s) (sf s) (sg s)) k)) w in
  let t2 := add32 (bsig0 (sa s)) (Maj (sa s) (sb s) (sc s)) in
  mkState (add32 t1 t2) (sa s) (sb s) (sc s) (add32 (sd s) t1) (se s) (sf s) (sg s).

Definition compress (h : state) (block : list Z) : state :=
  let w := block ++ schedule 48 block in
  let s := fold_left round (combine K w) h in
  mkState (add32 (sa h) (sa s)) (add32 (sb h) (sb s))
          (add32 (sc h) (sc s)) (add32 (sd h) (sd s))
          (add32 (se h) (se s)) (add32 (sf h) (sf s))
          (add32 (sg h) (sg s)) (add32 (sh h) (sh s)).

Fixpoint blocks (fuel : nat) (ws : list Z) (h : state) : state :=
  match fuel, ws with
  | S fuel', _ :: _ => blocks fuel' (skipn 16 ws) (compress h (firstn 16 ws))
  | _, _ => h
  end.

Definition sha256 (msg : list Z) : state :=
  let ws := words (pad msg) in
  blocks (List.length ws) ws H0.

Definition hex_digit (d : Z) : ascii :=
  nth (Z.to_nat d) (list_ascii_of_string "0123456789abcdef") "0"%char.

Definition hex_word (w : Z) : list ascii :=
  map (fun i => hex_digit (Z.land (Z.shiftr w (4 * Z.of_nat i)) 15))
      (rev (seq 0 8)).

Definition hexdigest (s : state) : string :=
  string_of_list_ascii
    (hex_word (sa s) ++ hex_word (sb s) ++ hex_word (sc s) ++ hex_word (sd s) ++
     hex_word (se s) ++ hex_word (sf s) ++ hex_word (sg s) ++ hex_word (sh s)).

End SHA256.

(** [s.encode('utf-8')]: the bytes of the text. *)
Definition encode_utf8 (s : string) : list Z :=
  map (fun c => Z.of_nat (nat_of_ascii c)) (list_ascii_of_string s).

Definition sha256_hexdigest (s : string) : string :=
  SHA256.hexdigest (SHA256.sha256 (encode_utf8 s)).
Arguments sha256_hexdigest : simpl never.


(** ** Python values and dictionaries *)

(** What [json.loads] returns: None, bool, int, str, list, dict. *)
#[local] Unset Elimination Schemes.
Inductive JSON : Type :=
| JNull
| JBool (b : bool)
| JInt (n : Z)
| JStr (s : string)
| JArr (items : list JSON)
| JObj (members : list (string * JSON)).
#[local] Set Elimination Schemes.

(** Induction over a value, its elements and its members. *)
Fixpoint JSON_ind (P : JSON -> Prop)
  (Hnull : P JNull) (Hbool : forall b, P (JBool b))
  (Hint : forall n, P (JInt n)) (Hstr : forall s, P (JStr s))
  (Harr : forall items, Forall P items -> P (JArr items))
  (Hobj : forall members, Forall (fun kv => P (snd kv)) members -> P (JObj members))
  (v : JSON) {struct v} : P v :=
  let rec := JSON_ind P Hnull Hbool Hint Hstr Harr Hobj in
  match v with
  | JNull => Hnull
  | JBool b => Hbool b
  | JInt n => Hint n
  | JStr s => Hstr s
  | JArr items =>
      Harr items
        ((fix all (l : list JSON) : Forall P l :=
            match l with
            | [] => Forall_nil P
            | x :: l' => Forall_cons x (rec x) (all l')
            end) items)
  | JObj members =>
      Hobj members
        ((fix all (l : list (string * JSON)) : Forall (fun kv => P (snd kv)) l :=
            match l with
            | [] => Forall_nil _
            | kv :: l' => Forall_cons kv (rec (snd kv)) (all l')
            end) members)
  end.

Definition is_None (v : JSON) : bool :=
  match v with JNull => true | _ => false end.
Definition is_dict (v : JSON) : bool :=
  match v with JObj _ => true | _ => false end.
Definition is_list (v : JSON) : bool :=
  match v with JArr _ => true | _ => false end.
Definition is_str (v : JSON) : bool :=
  match v with JStr _ => true | _ => false end.

(** A dict with [str] keys, in insertion order. *)
Fixpoint dict_get {V : Type} (k : string) (d : list (string * V)) : option V :=
  match d with
  | [] => None
  | (k', v) :: d' => if String.eqb k k' then Some v else dict_get k d'
  end.

(** [d[k] = v]: an existing key keeps its place, a new one goes last. *)
Fixpoint dict_set {V : Type} (k : string) (v : V) (d : list (string * V))
  : list (string * V) :=
  match d with
  | [] => [(k, v)]
  | (k', v') :: d' =>
      if String.eqb k k' then (k', v) :: d' else (k', v') :: dict_set k v d'
  end.

(** [k in d] *)
Definition dict_mem {V : Type} (k : string) (d : list (string * V)) : bool :=
  match dict_get k d with Some _ => true | None => false end.

Definition dict_keys {V : Type} (d : list (string * V)) : list string :=
  map fst d.

(** ** str() and repr() *)

Definition LF : ascii := "010"%char.
Definition CR : ascii := "013"%char.
Definition TAB : ascii := "009"%char.
Definition DQUOTE : ascii := "034"%char.
Definition SQUOTE : ascii := "'"%char.
Definition BACKSLASH : ascii := "\"%char.

Definition str1 (c : ascii) : string := String c EmptyString.

Definition hex2 (n : nat) : string :=
  String (SHA256.hex_digit (Z.of_nat (n / 16)))
    (String (SHA256.hex_digit (Z.of_nat (n mod 16))) EmptyString).

Definition repr_char (quote c : ascii) : string :=
  if Ascii.eqb c quote || Ascii.eqb c BACKSLASH then String BACKSLASH (str1 c)
  else if Ascii.eqb c TAB then "\t"
  else if Ascii.eqb c LF then "\n"
  else if Ascii.eqb c CR then "\r"
  else if (nat_of_ascii c <? 32)%nat || (nat_of_ascii c =? 127)%nat
       then "\x" +++ hex2 (nat_of_ascii c)
  else str1 c.

(** [repr(s)] of a str: single quotes unless the text has a single
    quote and no double quote. *)
Definition repr_str (s : string) : string :=
  let cs := list_ascii_of_string s in
  let quote :=
    if existsb (Ascii.eqb SQUOTE) cs && negb (existsb (Ascii.eqb DQUOTE) cs)
    then DQUOTE else SQUOTE in
  String quote (String.concat "" (map (repr_char quote) cs) +++ str1 quote).

Definition str_int (n : Z) : string := NilZero.string_of_int (Z.to_int n).

Fixpoint py_repr (v : JSON) : string :=
  match v with
  | JNull => "None"
  | JBool true => "True"
  | JBool false => "False"
  | JInt n => str_int n
  | JStr s => repr_str s
  | JArr items => "[" +++ String.concat ", " (map py_repr items) +++ "]"
  | JObj members =>
      "{" +++ String.concat ", "
                (map (fun kv => match kv with
                                | (k, x) => repr_str k +++ ": " +++ py_repr x
                                end) members) +++ "}"
  end.

(** [str(value)] *)
Definition py_str (v : JSON) : string :=
  match v with
  | JStr s => s
  | _ => py_repr v
  end.

(** ** The anonymizer *)

Definition FIELDS_TO_ANONYMIZE : list string :=
  ["PatientIDx"; "PatientID"; "TreatmentName"; "FirstName"; "LastName"].

(** [key in fields] *)
Definition in_fields (key : string) (fields : list string) : bool :=
  existsb (String.eqb key) fields.

(** The digest [hash_value] computes for a value that is not None. *)
Definition digest (value : JSON) : string :=
  sha256_hexdigest (py_str value).
Arguments digest : simpl never.

(** [hash_value]: [None] stands for Python's None. *)
Definition hash_value (value : JSON) : option string :=
  if negb (is_None value) then Some (digest value) else None.

(** The mapping: digest -> original value, as stored. *)
Definition Mapping : Type := list (string * JSON).

(** [anonymize_dict data mapping fields] returns the anonymized
    value and the mapping as the call leaves it.  [loop] is the
    [for key, value in data.items()] loop, [comp] the list
    comprehension of the [list] branch.  The call of [hash_value] in
    [loop] is guarded by [value is not None], so it never yields None
    ([hash_value_not_None]): the [None] branch of the match is not
    reached. *)
Fixpoint anonymize_dict (data : JSON) (mapping : Mapping) (fields : list string)
  {struct data} : JSON * Mapping :=
  match data with
  | JObj members =>
      let fix loop (items : list (string * JSON))
                   (anonymized : list (string * JSON)) (mapping : Mapping)
                   {struct items} : JSON * Mapping :=
        match items with
        | [] => (JObj anonymized, mapping)
        | (key, value) :: rest =>
            if in_fields key fields && negb (is_None value) then
              match hash_value value with
              | Some hashed_value =>
                  let mapping :=
                    if negb (dict_mem hashed_value mapping)
                    then dict_set hashed_value value mapping
                    else mapping in
                  loop rest (dict_set key (JStr hashed_value) anonymized) mapping
              | None => loop rest (dict_set key JNull anonymized) mapping
              end
            else
              match value with
              | JObj _ =>
                  let '(r, mapping) := anonymize_dict value mapping fields in
                  loop rest (dict_set key r anonymized) mapping
              | JArr l =>
                  let fix comp (l : list JSON) (mapping : Mapping) {struct l}
                    : list JSON * Mapping :=
                    match l with
                    | [] => ([], mapping)
                    | item :: l' =>
                        let '(r, mapping) :=
                          match item with
                          | JObj _ => anonymize_dict item mapping fields
                          | _ => (item, mapping)
                          end in
                        let '(rs, mapping) := comp l' mapping in
                        (r :: rs, mapping)
                    end in
                  let '(rs, mapping) := comp l mapping in
                  loop rest (dict_set key (JArr rs) anonymized) mapping
              | _ => loop rest (dict_set key value anonymized) mapping
              end
        end in
      loop members [] mapping
  | _ => (data, mapping)
  end.

(** The list comprehension
    [[anonymize_dict(item, ...) if isinstance(item, dict) else item for item in value]],
    as a function of its own; [process_json_file] has the same one. *)
Fixpoint anonymize_items (l : list JSON) (mapping : Mapping) (fields : list string)
  : list JSON * Mapping :=
  match l with
  | [] => ([], mapping)
  | item :: l' =>
      let '(r, mapping) :=
        if is_dict item then anonymize_dict item mapping fields
        else (item, mapping) in
      let '(rs, mapping) := anonymize_items l' mapping fields in
      (r :: rs, mapping)
  end.

(** The type dispatch of the loop body: the [elif]/[else] branches. *)
Definition anonymize_value (fields : list string) (value : JSON)
  (mapping : Mapping) : JSON * Mapping :=
  match value with
  | JObj _ => anonymize_dict value mapping fields
  | JArr l =>
      let '(rs, mapping) := anonymize_items l mapping fields in
      (JArr rs, mapping)
  | _ => (value, mapping)
  end.

(** One turn of the [for key, value in data.items()] loop. *)
Definition anonymize_member (fields : list string) (key : string) (value : JSON)
  (mapping : Mapping) : JSON * Mapping :=
  if in_fields key fields && negb (is_None value) then
    match hash_value value with
    | Some hashed_value =>
        (JStr hashed_value,
         if negb (dict_mem hashed_value mapping)
         then dict_set hashed_value value mapping else mapping)
    | None => (JNull, mapping)
    end
  else anonymize_value fields value mapping.

(** The loop of [anonymize_dict], from the members left to visit. *)
Fixpoint anonymize_loop (fields : list string) (items : list (string * JSON))
  (anonymized : list (string * JSON)) (mapping : Mapping) : JSON * Mapping :=
  match items with
  | [] => (JObj anonymized, mapping)
  | (key, value) :: rest =>
      let '(r, mapping) := anonymize_member fields key value mapping in
      anonymize_loop fields rest (dict_set key r anonymized) mapping
  end.


(** *** What a walk returns and what it records *)

(** Insert-if-absent of one original under its digest. *)
Definition remember (mapping : Mapping) (value : JSON) : Mapping :=
  if negb (dict_mem (digest value) mapping)
  then dict_set (digest value) value mapping
  else mapping.

(** The values a walk hashes, in the order it meets them: the non-null
    values of sensitive keys; other values are searched when they are
    objects, or arrays (their object elements only). *)
Fixpoint sensitive_values (fields : list string) (v : JSON) : list JSON :=
  match v with
  | JObj members =>
      flat_map (fun kv => match kv with
                          | (k, x) =>
                              if in_fields k fields && negb (is_None x) then [x]
                              else sensitive_values fields x
                          end) members
  | JArr l =>
      flat_map (fun item => if is_dict item then sensitive_values fields item
                            else []) l
  | _ => []
  end.

(** The anonymized form of a value, whatever the mapping holds. *)
Definition anonymized (fields : list string) (v : JSON) : JSON :=
  fst (anonymize_dict v [] fields).

(** The output for a value met under a key that is not sensitive. *)
Definition value_result (fields : list string) (value : JSON) : JSON :=
  match value with
  | JObj _ => anonymized fields value
  | JArr l =>
      JArr (map (fun item => if is_dict item then anonymized fields item
                             else item) l)
  | _ => value
  end.

(** The value the output has for a member [key: value]. *)
Definition member_result (fields : list string) (key : string) (value : JSON)
  : JSON :=
  if in_fields key fields && negb (is_None value)
  then JStr (sha256_hexdigest (py_str value))
  else value_result fields value.

(** What one member makes the walk record. *)
Definition member_values (fields : list string) (kv : string * JSON) : list JSON :=
  if in_fields (fst kv) fields && negb (is_None (snd kv)) then [snd kv]
  else sensitive_values fields (snd kv).

Definition item_values (fields : list string) (item : JSON) : list JSON :=
  if is_dict item then sensitive_values fields item else [].

(** A walk of [v] returns the anonymized form and records the sensitive
    values in order: the statement proved by induction on [v]. *)
Definition walk_ok (fields : list string) (v : JSON) : Prop :=
  forall mapping,
    anonymize_value fields v mapping =
    (value_result fields v, fold_left remember (sensitive_values fields v) mapping).

(** Every key is the digest of the original stored under it. *)
Definition digest_keyed (mapping : Mapping) : Prop :=
  Forall (fun e => fst e = digest (snd e)) mapping.

(** A digit of a lowercase hexadecimal numeral: 0-9 or a-f. *)
Definition is_lower_hex (c : ascii) : bool :=
  let n := nat_of_ascii c in
  ((48 <=? n) && (n <=? 57) || (97 <=? n) && (n <=? 102))%nat.

(** *** Sample documents *)

(** [{"Patient": {"FirstName": "Alice", "Age": 5}}] *)
Definition nested_example : list (string * JSON) :=
  [("Patient", JObj [("FirstName", JStr "Alice"); ("Age", JInt 5)])].

(** [{"PatientID": 1, "FirstName": "Alice", "LastName": null,
     "Visits": [3, {"LastName": "Smith"}, {"LastName": "Smith"}]}] *)
Definition record_example : list (string * JSON) :=
  [("PatientID", JInt 1); ("FirstName", JStr "Alice"); ("LastName", JNull);
   ("Visits", JArr [JInt 3; JObj [("LastName", JStr "Smith")];
                    JObj [("LastName", JStr "Smith")]])].

(** [{"FirstName": {"LastName": "Smith"}, "Age": 5}] *)
Definition container_example : list (string * JSON) :=
  [("FirstName", JObj [("LastName", JStr "Smith")]); ("Age", JInt 5)].

(** [{"PatientID": 1, "FirstName": true}] *)
Definition bool_int_example : list (string * JSON) :=
  [("PatientID", JInt 1); ("FirstName", JBool true)].

(** ** Saving the mapping *)

Inductive exn : Type :=
| FileNotFoundError
| JSONDecodeError
| TypeError.

Inductive result (A : Type) : Type :=
| Ok (a : A)
| Raise (e : exn).
Arguments Ok {A} a.
Arguments Raise {A} e.

(** A list or a dict cannot be a dict key. *)
Definition hashable (v : JSON) : bool :=
  match v with
  | JArr _ | JObj _ => false
  | _ => true
  end.

(** [a == b] between two hashable values, as a dict compares its keys:
    True is 1 and False is 0. *)
Definition key_eqb (a b : JSON) : bool :=
  match a, b with
  | JNull, JNull => true
  | JStr s, JStr t => String.eqb s t
  | JInt n, JInt m => Z.eqb n m
  | JBool x, JBool y => Bool.eqb x y
  | JBool x, JInt m => Z.eqb (Z.b2z x) m
  | JInt n, JBool y => Z.eqb n (Z.b2z y)
  | _, _ => false
  end.

(** A dict whose keys are Python values. *)
Fixpoint pydict_get {V : Type} (k : JSON) (d : list (JSON * V)) : option V :=
  match d with
  | [] => None
  | (k', v) :: d' => if key_eqb k k' then Some v else pydict_get k d'
  end.

(** [d[k] = v]: the key object already there is kept. *)
Fixpoint pydict_set {V : Type} (k : JSON) (v : V) (d : list (JSON * V))
  : list (JSON * V) :=
  match d with
  | [] => [(k, v)]
  | (k', v') :: d' =>
      if key_eqb k k' then (k', v) :: d' else (k', v') :: pydict_set k v d'
  end.

(** [{original: hash_val for hash_val, original in mapping.items()}];
    an unhashable original raises TypeError. *)
Fixpoint reverse_comprehension (items : Mapping) (acc : list (JSON * string))
  : result (list (JSON * string)) :=
  match items with
  | [] => Ok acc
  | (hash_val, original) :: rest =>
      if hashable original
      then reverse_comprehension rest (pydict_set original hash_val acc)
      else Raise TypeError
  end.

(** An entry of the mapping, turned round. *)
Definition swap (e : string * JSON) : JSON * string := (snd e, fst e).

(** [mapping_data] *)
Record MappingData : Type := mkMappingData
  { hash_to_original : Mapping;
    original_to_hash : list (JSON * string);
    total_mappings : nat }.

(** The text [json.dump] writes for a key that is not a str. *)
Definition json_key (k : JSON) : string :=
  match k with
  | JStr s => s
  | JInt n => str_int n
  | JBool true => "true"
  | JBool false => "false"
  | _ => "null"
  end.

(** [mapping_data] as the document [json.dump] serialises. *)
Definition mapping_document (md : MappingData) : JSON :=
  JObj [ ("hash_to_original", JObj (hash_to_original md));
         ("original_to_hash",
          JObj (map (fun kh => (json_key (fst kh), JStr (snd kh)))
                    (original_to_hash md)));
         ("total_mappings", JInt (Z.of_nat (total_mappings md))) ].

Definition build_mapping_data (mapping : Mapping) : result MappingData :=
  match reverse_comprehension mapping [] with
  | Ok reverse_mapping =>
      Ok (mkMappingData mapping reverse_mapping (List.length mapping))
  | Raise e => Raise e
  end.

(** *** What a file processor writes and records *)

(** The values a parsed document makes the anonymizer record. *)
Definition document_values (fields : list string) (data : JSON) : list JSON :=
  if is_dict data then sensitive_values fields data else [].

Fixpoint join_lines (l : list string) : string :=
  match l with
  | [] => ""
  | x :: xs => x +++ join_lines xs
  end.

(** ** Files *)

(** The json module: [json.loads] (None: JSONDecodeError),
    [json.dumps(x)] and [json.dump(x, f, indent=2, ensure_ascii=False)]. *)
Class JsonLib : Type :=
  { json_loads : string -> option JSON;
    json_dumps : JSON -> string;
    json_dump_indent : JSON -> string }.

(** The working directory: file name -> content, in listing order. *)
Definition FS : Type := list (string * string).

Definition fs_remove (path : string) (fs : FS) : FS :=
  filter (fun e => negb (String.eqb path (fst e))) fs.

(** [os.replace(src, dst)] of an existing [src]. *)
Definition os_replace (src dst : string) (fs : FS) : FS :=
  match dict_get src fs with
  | Some content => dict_set dst content (fs_remove src fs)
  | None => fs
  end.

(** Text mode reads CR LF and CR as LF. *)
Fixpoint universal_newlines (cs : list ascii) : list ascii :=
  match cs with
  | [] => []
  | c :: rest =>
      if Ascii.eqb c CR then
        match rest with
        | c' :: rest' =>
            if Ascii.eqb c' LF then LF :: universal_newlines rest'
            else LF :: universal_newlines rest
        | [] => [LF]
        end
      else c :: universal_newlines rest
  end.

(** [open(path, 'r', encoding='utf-8')] then [read()]. *)
Definition read_text (path : string) (fs : FS) : option string :=
  match dict_get path fs with
  | Some content =>
      Some (string_of_list_ascii (universal_newlines (list_ascii_of_string content)))
  | None => None
  end.

(** [for line in infile]: each line keeps its LF. *)
Fixpoint lines_of (cs : list ascii) (cur : list ascii) : list string :=
  match cs with
  | [] =>
      match cur with
      | [] => []
      | _ => [string_of_list_ascii (rev cur)]
      end
  | c :: rest =>
      if Ascii.eqb c LF
      then string_of_list_ascii (rev (c :: cur)) :: lines_of rest []
      else lines_of rest (c :: cur)
  end.

Definition readlines (text : string) : list string :=
  lines_of (list_ascii_of_string text) [].

(** The white space [str.strip()] removes, on UTF-8 bytes: U+0009..000D,
    U+001C..0020, U+0085, U+00A0, U+1680, U+2000..200A, U+2028, U+2029,
    U+202F, U+205F, U+3000. *)
Fixpoint all_space (cs : list ascii) : bool :=
  match cs with
  | [] => true
  | c1 :: r1 =>
      let b1 := N_of_ascii c1 in
      if ((9 <=? b1) && (b1 <=? 13) || (28 <=? b1) && (b1 <=? 32))%N
      then all_space r1
      else
        match r1 with
        | [] => false
        | c2 :: r2 =>
            let b2 := N_of_ascii c2 in
            if ((b1 =? 194) && ((b2 =? 133) || (b2 =? 160)))%N
            then all_space r2
            else
              match r2 with
              | [] => false
              | c3 :: r3 =>
                  let b3 := N_of_ascii c3 in
                  if ((b1 =? 225) && (b2 =? 154) && (b3 =? 128)
                      || (b1 =? 226) && (b2 =? 128)
                         && ((128 <=? b3) && (b3 <=? 138) || (b3 =? 168)
                             || (b3 =? 169) || (b3 =? 175))
                      || (b1 =? 226) && (b2 =? 129) && (b3 =? 159)
                      || (b1 =? 227) && (b2 =? 128) && (b3 =? 128))%N
                  then all_space r3
                  else false
              end
        end
  end.

(** The truth value of [line.strip()]. *)
Definition strip_nonempty (line : string) : bool :=
  negb (all_space (list_ascii_of_string line)).

Section Processors.
Context {J : JsonLib}.

(** The loop of [process_jsonl_file]: [out] is what [outfile] holds. *)
Fixpoint jsonl_loop (lines : list string) (count : nat) (out : string)
  (mapping : Mapping) (fields : list string) : result nat * string * Mapping :=
  match lines with
  | [] => (Ok count, out, mapping)
  | line :: rest =>
      if strip_nonempty line then
        match json_loads line with
        | None => (Raise JSONDecodeError, out, mapping)
        | Some data =>
            let '(anonymized_data, mapping) := anonymize_dict data mapping fields in
            jsonl_loop rest (count + 1)
                       (out +++ json_dumps anonymized_data +++ str1 LF)
                       mapping fields
        end
      else jsonl_loop rest count out mapping fields
  end.

(** The lines the loop writes for the documents [docs]. *)
Definition rendered (fields : list string) (docs : list JSON) : string :=
  join_lines (map (fun d => json_dumps (fst (anonymize_dict d [] fields)) +++ str1 LF)
                  docs).

Definition process_jsonl_file (file_path : string) (mapping : Mapping)
  (fields : list string) (fs : FS) : result nat * FS * Mapping :=
  let temp_file := file_path +++ ".tmp" in
  match read_text file_path fs with
  | None => (Raise FileNotFoundError, fs, mapping)
  | Some text =>
      match jsonl_loop (readlines text) 0 "" mapping fields with
      | (Ok count, out, mapping) =>
          (Ok count, os_replace temp_file file_path (dict_set temp_file out fs),
           mapping)
      | (Raise e, out, mapping) =>
          (Raise e, dict_set temp_file out fs, mapping)
      end
  end.

(** [process_json_file]: the outcomes are the missing file, the text
    that does not parse, the scalar document (False) and the rewritten
    file (True).  Serialising and writing are taken to succeed: an
    exception raised after the walk has begun has no outcome here. *)
Definition process_json_file (file_path : string) (mapping : Mapping)
  (fields : list string) (fs : FS) : result bool * FS * Mapping :=
  match read_text file_path fs with
  | None => (Raise FileNotFoundError, fs, mapping)
  | Some text =>
      match json_loads text with
      | None => (Raise JSONDecodeError, fs, mapping)
      | Some data =>
          let anonymized :=
            match data with
            | JArr l =>
                let '(rs, mapping) := anonymize_items l mapping fields in
                Some (JArr rs, mapping)
            | JObj _ => Some (anonymize_dict data mapping fields)
            | _ => None
            end in
          match anonymized with
          | None => (Ok false, fs, mapping)
          | Some (anonymized_data, mapping) =>
              let temp_file := file_path +++ ".tmp" in
              (Ok true,
               os_replace temp_file file_path
                 (dict_set temp_file (json_dump_indent anonymized_data) fs),
               mapping)
          end
      end
  end.

Definition save_mapping (mapping : Mapping) (output_file : string) (fs : FS)
  : result unit * FS :=
  match build_mapping_data mapping with
  | Raise e => (Raise e, fs)
  | Ok mapping_data =>
      (Ok tt,
       dict_set output_file (json_dump_indent (mapping_document mapping_data)) fs)
  end.

End Processors.

(** *** A json module for the examples

    The two serialisers are the library's on values whose strings are
    ASCII; the parser reads back the compact text of the documents of
    [known_documents], with or without a final LF, and rejects every
    other text: the examples give it no other well-formed text. *)

Definition json_escape_char (ensure_ascii : bool) (c : ascii) : string :=
  let n := nat_of_ascii c in
  if Ascii.eqb c DQUOTE || Ascii.eqb c BACKSLASH then String BACKSLASH (str1 c)
  else if Ascii.eqb c LF then "\n"
  else if Ascii.eqb c CR then "\r"
  else if Ascii.eqb c TAB then "\t"
  else if (n =? 8)%nat then "\b"
  else if (n =? 12)%nat then "\f"
  else if (n <? 32)%nat || (ensure_ascii && (n =? 127)%nat)
       then "\u00" +++ hex2 n
  else str1 c.

Definition json_quote (ensure_ascii : bool) (s : string) : string :=
  String DQUOTE
    (String.concat "" (map (json_escape_char ensure_ascii) (list_ascii_of_string s))
     +++ str1 DQUOTE).

Fixpoint spaces (n : nat) : string :=
  match n with
  | O => ""
  | S n' => String " " (spaces n')
  end.

(** [pretty] is [indent=2]; [level] counts the enclosing containers. *)
Fixpoint json_text (pretty ensure_ascii : bool) (level : nat) (v : JSON) : string :=
  let newline := fun l => if pretty then String LF (spaces (2 * l)) else "" in
  let comma := if pretty then "," +++ newline (S level) else ", " in
  match v with
  | JNull => "null"
  | JBool true => "true"
  | JBool false => "false"
  | JInt n => str_int n
  | JStr s => json_quote ensure_ascii s
  | JArr [] => "[]"
  | JArr items =>
      "[" +++ newline (S level)
      +++ String.concat comma (map (json_text pretty ensure_ascii (S level)) items)
      +++ newline level +++ "]"
  | JObj [] => "{}"
  | JObj members =>
      "{" +++ newline (S level)
      +++ String.concat comma
            (map (fun kv => match kv with
                            | (k, x) =>
                                json_quote ensure_ascii k +++ ": "
                                +++ json_text pretty ensure_ascii (S level) x
                            end) members)
      +++ newline level +++ "}"
  end.

Definition known_documents : list JSON :=
  [ JObj nested_example; JObj record_example; JObj container_example;
    JObj bool_int_example; JObj [("FirstName", JStr "Alice")]; JInt 42 ].

(** The text without its final LF. *)
Fixpoint chomp (s : string) : string :=
  match s with
  | EmptyString => EmptyString
  | String c EmptyString => if Ascii.eqb c LF then EmptyString else s
  | String c s' => String c (chomp s')
  end.

Definition loads_known (s : string) : option JSON :=
  find (fun v => String.eqb (chomp s) (json_text false true 0 v)) known_documents.

Definition ascii_json : JsonLib :=
  {| json_loads := loads_known;
     json_dumps := json_text false true 0;
     json_dump_indent := json_text true false 0 |}.

(** The text of a JSONL line holding [v]. *)
Definition jsonl_line (v : JSON) : string := json_text false true 0 v +++ str1 LF.

(** ** main *)

Fixpoint contains (sub s : string) : bool :=
  String.prefix sub s ||
  match s with
  | EmptyString => false
  | String _ s' => contains sub s'
  end.

Definition ends_with (suffix s : string) : bool :=
  let n := String.length s in
  let m := String.length suffix in
  (m <=? n)%nat && String.eqb (substring (n - m) m s) suffix.

(** [fnmatch] of a pattern [prefix*suffix]. *)
Definition fnmatch_star (prefix suffix name : string) : bool :=
  String.prefix prefix name && ends_with suffix name
  && (String.length prefix + String.length suffix <=? String.length name)%nat.

(** [glob.glob(prefix*suffix)] in the working directory. *)
Definition glob (prefix suffix : string) (fs : FS) : list string :=
  filter (fnmatch_star prefix suffix) (dict_keys fs).

Fixpoint rfind_dot (s : string) (pos : nat) : option nat :=
  match s with
  | EmptyString => None
  | String c s' =>
      match rfind_dot s' (S pos) with
      | Some i => Some i
      | None => if Ascii.eqb c "."%char then Some pos else None
      end
  end.

(** [Path(name).suffix] of a file name of the working directory. *)
Definition path_suffix (name : string) : string :=
  match rfind_dot name 0 with
  | Some i =>
      if (0 <? i)%nat && (i <? String.length name - 1)%nat
      then substring i (String.length name - i) name
      else ""
  | None => ""
  end.

Definition str_nat (n : nat) : string := str_int (Z.of_nat n).

(** What the run has done so far; [stdout] lists the printed lines. *)
Record Run : Type := mkRun
  { run_fs : FS;
    run_mapping : Mapping;
    total_records : nat;
    stdout : list string }.

Definition print (line : string) (st : Run) : Run :=
  mkRun (run_fs st) (run_mapping st) (total_records st) (stdout st ++ [line]).

Section Main.
Context {J : JsonLib}.

(** The body of [for file_path in all_files]. *)
Definition process_file (fields : list string) (file_path : string) (st : Run)
  : result unit * Run :=
  let file_ext := path_suffix file_path in
  if String.eqb file_ext ".jsonl" then
    match process_jsonl_file file_path (run_mapping st) fields (run_fs st) with
    | (Ok count, fs, mapping) =>
        (Ok tt,
         print ("  Processed " +++ str_nat count +++ " records from " +++ file_path)
               (mkRun fs mapping (total_records st + count) (stdout st)))
    | (Raise e, fs, mapping) =>
        (Raise e, mkRun fs mapping (total_records st) (stdout st))
    end
  else if String.eqb file_ext ".json" then
    if contains "systeminfo" file_path then
      (Ok tt, print ("  Skipping " +++ file_path +++ " (system info file)") st)
    else
      match process_json_file file_path (run_mapping st) fields (run_fs st) with
      | (Ok true, fs, mapping) =>
          (Ok tt,
           print ("  Processed " +++ file_path)
                 (mkRun fs mapping (total_records st) (stdout st)))
      | (Ok false, fs, mapping) =>
          (Ok tt,
           print ("  Skipped " +++ file_path +++ " (unexpected format)")
                 (mkRun fs mapping (total_records st) (stdout st)))
      | (Raise e, fs, mapping) =>
          (Raise e, mkRun fs mapping (total_records st) (stdout st))
      end
  else (Ok tt, st).

(** The loop over [all_files]; an exception ends the run. *)
Fixpoint process_files (fields : list string) (all_files : list string) (st : Run)
  : result unit * Run :=
  match all_files with
  | [] => (Ok tt, st)
  | file_path :: rest =>
      match process_file fields file_path st with
      | (Ok _, st) => process_files fields rest st
      | (Raise e, st) => (Raise e, st)
      end
  end.

Definition main (fs : FS) : result unit * Run :=
  let fields_to_anonymize := FIELDS_TO_ANONYMIZE in
  let data_files := glob "data_" ".jsonl" fs in
  let failed_treatment_files := glob "failed_treatments_" ".json" fs in
  let failed_patient_files := glob "failed_patients_" ".json" fs in
  let all_files := data_files ++ failed_treatment_files ++ failed_patient_files in
  let st := mkRun fs [] 0 [] in
  match all_files with
  | [] =>
      (Ok tt,
       print "Looking for: data_*.jsonl, failed_treatments_*.json, failed_patients_*.json"
         (print "No generated files found to anonymize." st))
  | _ :: _ =>
      let st :=
        fold_left (fun st f => print ("  - " +++ f) st) all_files
          (print ("Found " +++ str_nat (List.length all_files)
                  +++ " file(s) to process:") st) in
      match process_files fields_to_anonymize all_files st with
      | (Raise e, st) => (Raise e, st)
      | (Ok _, st) =>
          match run_mapping st with
          | _ :: _ =>
              let mapping_file := "anonymization_mapping.json" in
              match save_mapping (run_mapping st) mapping_file (run_fs st) with
              | (Raise e, fs) =>
                  (Raise e, mkRun fs (run_mapping st) (total_records st) (stdout st))
              | (Ok _, fs) =>
                  (Ok tt,
                   print ("  Mapping saved to: " +++ mapping_file)
                     (print ("  Total records processed: "
                             +++ str_nat (total_records st))
                        (print ("  Total unique values hashed: "
                                +++ str_nat (List.length (run_mapping st)))
                           (print (str1 LF +++ "Anonymization complete!")
                              (mkRun fs (run_mapping st) (total_records st)
                                     (stdout st))))))
              end
          | [] =>
              (Ok tt,
               print (str1 LF +++ "No fields were anonymized (no matching fields found in files).")
                     st)
          end
      end
  end.

End Main.

(** *** Sample files *)

Definition alice : JSON := JObj [("FirstName", JStr "Alice")].

(** Two documents around a line of spaces. *)
Definition good_text : string :=
  jsonl_line (JObj nested_example) +++ "   " +++ str1 LF +++ jsonl_line alice.

(** A malformed line between two documents. *)
Definition bad_text : string :=
  jsonl_line alice +++ "{oops" +++ str1 LF +++ jsonl_line (JObj record_example).

Definition sample_fs : FS :=
  [ ("data_1.jsonl", good_text);
    ("data_systeminfo.jsonl", jsonl_line alice);
    ("failed_patients_1.json", json_text false true 0 (JInt 42));
    ("failed_patients_systeminfo.json", jsonl_line alice);
    ("failed_treatments_1.json", json_text false true 0 alice) ].

(** *** The start of a run *)

(** [all_files] of [main]. *)
Definition discovered (fs : FS) : list string :=
  glob "data_" ".jsonl" fs ++ glob "failed_treatments_" ".json" fs
  ++ glob "failed_patients_" ".json" fs.

(** The state [main] enters its loop with: nothing recorded, the list of
    the files printed. *)
Definition main_start (fs : FS) : Run :=
  fold_left (fun st f => print ("  - " +++ f) st) (discovered fs)
    (print ("Found " +++ str_nat (List.length (discovered fs))
            +++ " file(s) to process:") (mkRun fs [] 0 [])).

(** *** Dict keys up to equality *)

(** The representative of a hashable value among those equal to it as a
    dict key: a bool is its integer. *)
Definition key_norm (v : JSON) : JSON :=
  match v with
  | JBool b => JInt (Z.b2z b)
  | _ => v
  end.

(** One step of the reverse comprehension, without the hashability
    test. *)
Definition reverse_step (acc : list (JSON * string)) (e : string * JSON)
  : list (JSON * string) :=
  pydict_set (snd e) (fst e) acc.

(** Every stored original can be a dict key. *)
Definition originals_hashable (mapping : Mapping) : bool :=
  forallb (fun e => hashable (snd e)) mapping.

(** *** Well-formed documents *)

(** Pairwise distinct, as the keys of a dict are. *)
Fixpoint distinctb (keys : list string) : bool :=
  match keys with
  | [] => true
  | k :: rest => negb (existsb (String.eqb k) rest) && distinctb rest
  end.

(** Every object of the value, at any depth, is a dict. *)
Fixpoint wf_json (v : JSON) : bool :=
  match v with
  | JObj members =>
      distinctb (dict_keys members)
      && forallb (fun kv => match kv with (_, x) => wf_json x end) members
  | JArr items => forallb wf_json items
  | _ => true
  end.

(** *** A json module that knows given documents *)

Definition loads_from (known : list JSON) (s : string) : option JSON :=
  find (fun v => String.eqb (chomp s) (json_text false true 0 v)) known.

Definition json_knowing (known : list JSON) : JsonLib :=
  {| json_loads := loads_from known;
     json_dumps := json_text false true 0;
     json_dump_indent := json_text true false 0 |}.

(** [{"Visits": [[{"FirstName": "Alice"}]]}]: a record inside a list inside a list. *)
Definition list_in_list_example : list (string * JSON) :=
  [("Visits", JArr [JArr [alice]])].

(** [sample_fs] with a JSONL file holding a malformed line. *)
Definition broken_fs : FS :=
  [ ("data_1.jsonl", good_text);
    ("data_2.jsonl", bad_text);
    ("failed_treatments_1.json", json_text false true 0 alice);
    ("notes.txt", "keep") ].

(** ** SHA-256 test vectors *)

Example sha256_empty :
  sha256_hexdigest "" =
  "e3b0c44298fc1c149afbf4c8996fb92427ae41e4649b934ca495991b7852b855".
Proof. vm_compute. reflexivity. Qed.

Example sha256_abc :
  sha256_hexdigest "abc" =
  "ba7816bf8f01cfea414140de5dae2223b00361a396177a9cb410ff61f20015ad".
Proof. vm_compute. reflexivity. Qed.

Example sha256_two_blocks :
  sha256_hexdigest "abcdbcdecdefdefgefghfghighijhijkijkljklmklmnlmnomnopnopq" =
  "248d6a61d20638b8e5c026930c3e6039a33ce45964ff2167f6ecedd419db06c1".
Proof. vm_compute. reflexivity. Qed.

Lemma anonymize_items_eq l : forall mapping fields,
  (fix comp (l : list JSON) (mapping : Mapping) {struct l}
     : list JSON * Mapping :=
     match l with
     | [] => ([], mapping)
     | item :: l' =>
         let '(r, mapping) :=
           match item with
           | JObj _ => anonymize_dict item mapping fields
           | _ => (item, mapping)
           end in
         let '(rs, mapping) := comp l' mapping in
         (r :: rs, mapping)
     end) l mapping = anonymize_items l mapping fields.
Proof.
  induction l as [|item l IH]; intros mapping fields; [reflexivity|].
  cbn [anonymize_items].
  destruct item; cbn [is_dict]; try (rewrite IH; reflexivity).
  destruct (anonymize_dict _ _ _). rewrite IH. reflexivity.
Qed.

Lemma anonymize_dict_obj members mapping fields :
  anonymize_dict (JObj members) mapping fields =
  anonymize_loop fields members [] mapping.
Proof.
  cbn [anonymize_dict].
  generalize (@nil (string * JSON)) as acc. revert mapping.
  induction members as [|[key value] rest IH]; intros mapping acc;
    [reflexivity|].
  cbn [anonymize_loop]. unfold anonymize_member, anonymize_value.
  destruct (in_fields key fields && negb (is_None value)).
  - destruct (hash_value value); apply IH.
  - destruct value; try apply IH.
    + rewrite anonymize_items_eq.
      destruct (anonymize_items _ _ _). apply IH.
    + destruct (anonymize_dict _ _ _). apply IH.
Qed.

(** ** Dictionaries *)

Section DictFacts.
Context {V : Type}.
Implicit Types (d : list (string * V)) (k : string) (v : V).

Lemma dict_get_set_same k v d : dict_get k (dict_set k v d) = Some v.
Proof.
  induction d as [|[k' v'] d IH]; cbn.
  - now rewrite String.eqb_refl.
  - destruct (String.eqb k k') eqn:E; cbn; rewrite E; auto.
Qed.

Lemma dict_get_set_other k k' v d :
  k <> k' -> dict_get k' (dict_set k v d) = dict_get k' d.
Proof.
  intros Hne. induction d as [|[k0 v0] d IH]; cbn.
  - destruct (String.eqb k' k) eqn:E; auto.
    apply String.eqb_eq in E. congruence.
  - destruct (String.eqb k k0) eqn:E; cbn.
    + apply String.eqb_eq in E. subst k0.
      destruct (String.eqb k' k) eqn:E'; auto.
      apply String.eqb_eq in E'. congruence.
    + now rewrite IH.
Qed.

Lemma dict_get_None_keys k d : dict_get k d = None <-> ~ In k (dict_keys d).
Proof.
  induction d as [|[k' v'] d IH]; cbn.
  - tauto.
  - destruct (String.eqb k k') eqn:E.
    + apply String.eqb_eq in E. subst. split; [discriminate | tauto].
    + apply String.eqb_neq in E. rewrite IH. split; [intros H [H'|H']|]; intuition congruence.
Qed.

Lemma dict_mem_keys k d : dict_mem k d = true <-> In k (dict_keys d).
Proof.
  unfold dict_mem. destruct (dict_get k d) eqn:E.
  - split; [intros _|reflexivity].
    destruct (in_dec string_dec k (dict_keys d)) as [H|H]; [assumption|].
    apply dict_get_None_keys in H. congruence.
  - apply dict_get_None_keys in E. split; [discriminate | tauto].
Qed.

Lemma dict_set_absent k v d :
  ~ In k (dict_keys d) -> dict_set k v d = d ++ [(k, v)].
Proof.
  induction d as [|[k' v'] d IH]; cbn; intros H; [reflexivity|].
  destruct (String.eqb k k') eqn:E.
  - apply String.eqb_eq in E. subst. tauto.
  - rewrite IH; tauto.
Qed.

Lemma dict_get_In k v d : dict_get k d = Some v -> In (k, v) d.
Proof.
  induction d as [|[k' v'] d IH]; cbn; [discriminate|].
  destruct (String.eqb k k') eqn:E.
  - apply String.eqb_eq in E. intros [= ->]. subst. now left.
  - auto.
Qed.

Lemma dict_In_get k v d : NoDup (dict_keys d) -> In (k, v) d -> dict_get k d = Some v.
Proof.
  induction d as [|[k' v'] d IH]; cbn; [tauto|].
  intros Hnd [[= -> ->]|Hin].
  - now rewrite String.eqb_refl.
  - inversion Hnd as [|? ? Hk Hnd']; subst.
    destruct (String.eqb k k') eqn:E; [|auto].
    apply String.eqb_eq in E. subst k'.
    exfalso. apply Hk. change k with (fst (k, v)). now apply in_map.
Qed.

End DictFacts.

Lemma dict_get_map {A B : Type} (f : string -> A -> B) k (d : list (string * A)) :
  dict_get k (map (fun kv => match kv with (k', x) => (k', f k' x) end) d) =
  option_map (f k) (dict_get k d).
Proof.
  induction d as [|[k' v'] d IH]; cbn; [reflexivity|].
  destruct (String.eqb k k') eqn:E; [|assumption].
  apply String.eqb_eq in E. now subst.
Qed.

(** ** The mapping under [remember] *)

Lemma remember_keeps mapping value h w :
  dict_get h mapping = Some w -> dict_get h (remember mapping value) = Some w.
Proof.
  unfold remember, dict_mem. intros H.
  destruct (dict_get (digest value) mapping) eqn:E; cbn; [assumption|].
  rewrite dict_get_set_other; [assumption|].
  intros Heq. rewrite Heq in E. congruence.
Qed.

Lemma remember_mem mapping value : dict_mem (digest value) (remember mapping value) = true.
Proof.
  unfold remember. destruct (dict_mem (digest value) mapping) eqn:E; cbn; [assumption|].
  unfold dict_mem. now rewrite dict_get_set_same.
Qed.

Lemma remember_NoDup mapping value :
  NoDup (dict_keys mapping) -> NoDup (dict_keys (remember mapping value)).
Proof.
  unfold remember. intros Hnd.
  destruct (dict_mem (digest value) mapping) eqn:E; cbn; [assumption|].
  assert (Hnot : ~ In (digest value) (dict_keys mapping)).
  { rewrite <- dict_mem_keys. congruence. }
  rewrite dict_set_absent by assumption.
  unfold dict_keys. rewrite map_app. cbn.
  apply NoDup_app; [assumption | repeat constructor; cbn; tauto | ].
  intros x Hx [<-|[]]. contradiction.
Qed.

Lemma remember_origin mapping value h w :
  dict_get h (remember mapping value) = Some w ->
  dict_get h mapping = Some w \/ (w = value /\ h = digest value).
Proof.
  unfold remember.
  destruct (dict_mem (digest value) mapping); cbn; [tauto|].
  destruct (string_dec (digest value) h) as [<-|Hne].
  - rewrite dict_get_set_same. intros [= <-]. tauto.
  - rewrite dict_get_set_other by assumption. tauto.
Qed.

Lemma remember_all_keeps values : forall mapping h w,
  dict_get h mapping = Some w ->
  dict_get h (fold_left remember values mapping) = Some w.
Proof.
  induction values as [|v vs IH]; cbn; intros; [assumption|].
  apply IH. now apply remember_keeps.
Qed.

Lemma remember_all_mem values : forall mapping v,
  In v values -> dict_mem (digest v) (fold_left remember values mapping) = true.
Proof.
  induction values as [|v0 vs IH]; cbn; intros mapping v; [tauto|].
  intros [->|Hin]; [|now apply IH].
  pose proof (remember_mem mapping v) as H. unfold dict_mem in *.
  destruct (dict_get (digest v) (remember mapping v)) eqn:E; [|discriminate].
  now rewrite (remember_all_keeps vs _ _ _ E).
Qed.

Lemma remember_all_NoDup values : forall mapping,
  NoDup (dict_keys mapping) ->
  NoDup (dict_keys (fold_left remember values mapping)).
Proof.
  induction values as [|v vs IH]; cbn; intros; [assumption|].
  apply IH. now apply remember_NoDup.
Qed.

Lemma remember_all_origin values : forall mapping h w,
  dict_get h (fold_left remember values mapping) = Some w ->
  dict_get h mapping = Some w \/ (In w values /\ h = digest w).
Proof.
  induction values as [|v vs IH]; cbn; intros mapping h w H; [tauto|].
  apply IH in H. destruct H as [H|[H1 H2]]; [|tauto].
  apply remember_origin in H. destruct H as [H|[-> ->]]; tauto.
Qed.

(** ** The walk: output and recorded values *)

Section Walk.
Variable fields : list string.

Lemma sensitive_values_obj members :
  sensitive_values fields (JObj members) = flat_map (member_values fields) members.
Proof.
  cbn. induction members as [|[k x] ms IH]; cbn; [reflexivity|].
  unfold member_values at 1. cbn. now rewrite IH.
Qed.

Lemma sensitive_values_arr items :
  sensitive_values fields (JArr items) = flat_map (item_values fields) items.
Proof. reflexivity. Qed.

Lemma hash_value_not_None value :
  is_None value = false -> hash_value value = Some (digest value).
Proof. unfold hash_value. now intros ->. Qed.

Lemma walk_items items :
  Forall (walk_ok fields) items ->
  forall mapping,
    anonymize_items items mapping fields =
    (map (fun item => if is_dict item then anonymized fields item else item) items,
     fold_left remember (flat_map (item_values fields) items) mapping).
Proof.
  induction 1 as [|item items Hitem _ IH]; intros mapping; [reflexivity|].
  cbn [anonymize_items map flat_map]. rewrite fold_left_app.
  unfold item_values at 1.
  destruct item; cbn [is_dict fold_left]; try (rewrite IH; reflexivity).
  specialize (Hitem mapping). cbn [anonymize_value value_result] in Hitem.
  rewrite Hitem, IH. reflexivity.
Qed.

Lemma walk_member key value :
  walk_ok fields value ->
  forall mapping,
    anonymize_member fields key value mapping =
    (member_result fields key value,
     fold_left remember (member_values fields (key, value)) mapping).
Proof.
  intros Hv mapping. unfold anonymize_member, member_result, member_values.
  cbn [fst snd].
  destruct (in_fields key fields && negb (is_None value)) eqn:E; [|apply Hv].
  apply andb_true_iff in E. destruct E as [_ E]. apply negb_true_iff in E.
  rewrite (hash_value_not_None _ E). reflexivity.
Qed.

Lemma walk_loop members :
  Forall (fun kv => walk_ok fields (snd kv)) members ->
  forall acc mapping,
    anonymize_loop fields members acc mapping =
    (fst (anonymize_loop fields members acc []),
     fold_left remember (flat_map (member_values fields) members) mapping).
Proof.
  induction 1 as [|[key value] rest Hv _ IH]; intros acc mapping; [reflexivity|].
  cbn [anonymize_loop flat_map snd] in *. rewrite fold_left_app.
  rewrite (walk_member key value Hv mapping), (walk_member key value Hv []).
  rewrite IH. rewrite (IH _ (fold_left _ _ [])). reflexivity.
Qed.

Lemma walk_value : forall v, walk_ok fields v.
Proof.
  induction v as [| | | |items IH|members IH] using JSON_ind;
    intros mapping; try reflexivity.
  - cbn [anonymize_value value_result]. rewrite (walk_items items IH).
    reflexivity.
  - cbn [anonymize_value value_result]. unfold anonymized.
    rewrite !anonymize_dict_obj, sensitive_values_obj.
    apply walk_loop, IH.
Qed.

Lemma anonymize_dict_walk data mapping :
  anonymize_dict data mapping fields =
  (anonymized fields data,
   fold_left remember (if is_dict data then sensitive_values fields data else [])
             mapping).
Proof.
  destruct data; try reflexivity.
  exact (walk_value (JObj members) mapping).
Qed.

Lemma anonymize_items_walk items mapping :
  anonymize_items items mapping fields =
  (map (fun item => if is_dict item then anonymized fields item else item) items,
   fold_left remember (flat_map (item_values fields) items) mapping).
Proof.
  apply walk_items. apply Forall_forall. intros; apply walk_value.
Qed.

Lemma anonymize_member_walk key value mapping :
  anonymize_member fields key value mapping =
  (member_result fields key value,
   fold_left remember (member_values fields (key, value)) mapping).
Proof. apply walk_member, walk_value. Qed.

(** With pairwise distinct keys the loop maps the members one by one. *)
Lemma anonymize_loop_members members : forall acc mapping,
  NoDup (dict_keys acc ++ dict_keys members) ->
  anonymize_loop fields members acc mapping =
  (JObj (acc ++ map (fun kv => match kv with
                               | (k, x) => (k, member_result fields k x)
                               end) members),
   fold_left remember (flat_map (member_values fields) members) mapping).
Proof.
  induction members as [|[key value] rest IH]; intros acc mapping Hnd.
  - cbn. now rewrite app_nil_r.
  - cbn [anonymize_loop flat_map map]. rewrite fold_left_app.
    rewrite anonymize_member_walk.
    assert (Hkey : ~ In key (dict_keys acc)).
    { intros Hin. cbn in Hnd. apply NoDup_remove_2 in Hnd.
      apply Hnd, in_or_app. now left. }
    rewrite (dict_set_absent _ _ _ Hkey).
    rewrite IH.
    + now rewrite <- app_assoc.
    + unfold dict_keys in *. rewrite map_app, <- app_assoc. exact Hnd.
Qed.

Lemma anonymize_dict_members members mapping :
  NoDup (dict_keys members) ->
  anonymize_dict (JObj members) mapping fields =
  (JObj (map (fun kv => match kv with
                        | (k, x) => (k, member_result fields k x)
                        end) members),
   fold_left remember (sensitive_values fields (JObj members)) mapping).
Proof.
  intros Hnd. rewrite anonymize_dict_obj, sensitive_values_obj.
  now rewrite (anonymize_loop_members members [] mapping Hnd).
Qed.

End Walk.

(** ** The shape of a digest *)

Lemma string_of_list_ascii_length l :
  String.length (string_of_list_ascii l) = List.length l.
Proof. induction l; cbn; congruence. Qed.

Lemma hex_digit_lower d : 0 <= d < 16 -> is_lower_hex (SHA256.hex_digit d) = true.
Proof.
  intros H.
  assert (Hd : In d [0;1;2;3;4;5;6;7;8;9;10;11;12;13;14;15]) by (cbn; lia).
  cbn in Hd.
  repeat (destruct Hd as [<-|Hd]; [reflexivity|]). destruct Hd.
Qed.

Lemma hex_word_length w : List.length (SHA256.hex_word w) = 8%nat.
Proof. unfold SHA256.hex_word. now rewrite length_map. Qed.

Lemma hex_word_lower w : Forall (fun c => is_lower_hex c = true) (SHA256.hex_word w).
Proof.
  unfold SHA256.hex_word. apply Forall_map, Forall_forall. intros i _.
  apply hex_digit_lower. change 15 with (Z.ones 4).
  rewrite Z.land_ones by lia. apply Z.mod_pos_bound. lia.
Qed.

Lemma hexdigest_shape s :
  String.length (sha256_hexdigest s) = 64%nat /\
  Forall (fun c => is_lower_hex c = true) (list_ascii_of_string (sha256_hexdigest s)).
Proof.
  unfold sha256_hexdigest, SHA256.hexdigest. split.
  - rewrite string_of_list_ascii_length, !length_app, !hex_word_length.
    reflexivity.
  - rewrite list_ascii_of_string_of_list_ascii.
    repeat (apply Forall_app; split); apply hex_word_lower.
Qed.

(** ** The recursive anonymizer *)

Ltac distinct_keys :=
  repeat (constructor; [cbn; intuition congruence|]); constructor.

Lemma is_None_false value : value <> JNull <-> is_None value = false.
Proof. destruct value; cbn; split; congruence. Qed.

Lemma sensitive_member_recorded fields members key value :
  In (key, value) members -> in_fields key fields = true -> value <> JNull ->
  In value (sensitive_values fields (JObj members)).
Proof.
  intros Hin Hk Hv. rewrite sensitive_values_obj. apply in_flat_map.
  exists (key, value). split; [assumption|].
  unfold member_values. cbn [fst snd].
  apply is_None_false in Hv. rewrite Hk, Hv. now left.
Qed.

Lemma anonymized_any_mapping fields v mapping :
  fst (anonymize_dict v mapping fields) = fst (anonymize_dict v [] fields).
Proof. now rewrite anonymize_dict_walk. Qed.

(** C1: for an object (a dict: its keys are pairwise distinct) the
    anonymizer returns an object with the same keys in the same order;
    the value of a sensitive key that is not null is the SHA-256 hex
    digest of its string form; under any other key an object is
    anonymized recursively, an array has its object elements anonymized
    and its other elements kept, and anything else is unchanged.  The
    mapping it leaves is the one it was given with every hashed value
    inserted, if its digest was absent, in the order of the walk; so the
    digest of each hashed value is a key, bound to the value stored
    first under it. *)
Theorem anonymize_dict_contract (members : list (string * JSON)) (mapping : Mapping) :
  NoDup (dict_keys members) ->
  let fields := FIELDS_TO_ANONYMIZE in
  let result := anonymize_dict (JObj members) mapping fields in
  fst result =
    JObj (map (fun kv =>
                 (fst kv,
                  if in_fields (fst kv) fields && negb (is_None (snd kv))
                  then JStr (sha256_hexdigest (py_str (snd kv)))
                  else
                    match snd kv with
                    | JObj _ => fst (anonymize_dict (snd kv) [] fields)
                    | JArr l =>
                        JArr (map (fun item =>
                                     if is_dict item
                                     then fst (anonymize_dict item [] fields)
                                     else item) l)
                    | other => other
                    end)) members)
  /\ (forall v m, fst (anonymize_dict v m fields) = fst (anonymize_dict v [] fields))
  /\ snd result = fold_left remember (sensitive_values fields (JObj members)) mapping
  /\ (forall key value,
        In (key, value) members -> in_fields key fields = true -> value <> JNull ->
        In value (sensitive_values fields (JObj members)) /\
        exists w,
          dict_get (sha256_hexdigest (py_str value)) (snd result) = Some w /\
          (dict_get (sha256_hexdigest (py_str value)) mapping = Some w \/
           (In w (sensitive_values fields (JObj members)) /\
            sha256_hexdigest (py_str w) = sha256_hexdigest (py_str value)))).
Proof.
  intros Hnd fields result. subst result.
  rewrite (anonymize_dict_members fields members mapping Hnd). cbn [fst snd].
  split; [|split; [|split]].
  - f_equal. apply map_ext. intros [key value]. cbn [fst snd].
    unfold member_result.
    destruct (in_fields key fields && negb (is_None value)); [reflexivity|].
    destruct value; reflexivity.
  - intros v m. apply anonymized_any_mapping.
  - reflexivity.
  - intros key value Hin Hk Hv.
    pose proof (sensitive_member_recorded fields members key value Hin Hk Hv) as Hrec.
    split; [assumption|].
    pose proof (remember_all_mem _ mapping value Hrec) as Hmem.
    unfold dict_mem in Hmem. fold (digest value).
    destruct (dict_get (digest value) (fold_left remember _ mapping)) as [w|] eqn:E;
      [|discriminate].
    exists w. split; [reflexivity|].
    apply remember_all_origin in E. destruct E as [E|[E1 E2]]; [now left|].
    right. split; [assumption|]. symmetry. exact E2.
Qed.

Lemma anonymize_dict_contract_witness :
  NoDup (dict_keys record_example) /\
  In ("FirstName", JStr "Alice") record_example /\
  in_fields "FirstName" FIELDS_TO_ANONYMIZE = true /\ JStr "Alice" <> JNull /\
  anonymize_dict (JObj record_example) [] FIELDS_TO_ANONYMIZE =
  (JObj [("PatientID",
          JStr "6b86b273ff34fce19d6b804eff5a3f5747ada4eaa22f1d49c01e52ddb7875b4b");
         ("FirstName",
          JStr "3bc51062973c458d5a6f2d8d64a023246354ad7e064b1e4e009ec8a0699a3043");
         ("LastName", JNull);
         ("Visits",
          JArr [JInt 3;
                JObj [("LastName",
                       JStr "9f542590100424c92a6ae40860f7017ac5dfbcff3cb49b36eace29b068e0d8e1")];
                JObj [("LastName",
                       JStr "9f542590100424c92a6ae40860f7017ac5dfbcff3cb49b36eace29b068e0d8e1")]])],
   [("6b86b273ff34fce19d6b804eff5a3f5747ada4eaa22f1d49c01e52ddb7875b4b", JInt 1);
    ("3bc51062973c458d5a6f2d8d64a023246354ad7e064b1e4e009ec8a0699a3043", JStr "Alice");
    ("9f542590100424c92a6ae40860f7017ac5dfbcff3cb49b36eace29b068e0d8e1", JStr "Smith")]) /\
  In (JStr "Alice") (sensitive_values FIELDS_TO_ANONYMIZE (JObj record_example)).
Proof.
  assert (Hnd : NoDup (dict_keys record_example)) by distinct_keys.
  assert (Hin : In ("FirstName", JStr "Alice") record_example) by (cbn; tauto).
  assert (Hv : JStr "Alice" <> JNull) by discriminate.
  split; [exact Hnd|]. split; [exact Hin|]. split; [reflexivity|].
  split; [exact Hv|].
  destruct (anonymize_dict_contract record_example [] Hnd)
    as (Hout & _ & Hmap & Hrec).
  split.
  - rewrite (surjective_pairing (anonymize_dict _ _ _)), Hout, Hmap.
    vm_compute. reflexivity.
  - exact (proj1 (Hrec "FirstName" (JStr "Alice") Hin eq_refl Hv)).
Defined.

(** The nested document of the specification. *)
Example nested_example_run :
  anonymize_dict (JObj nested_example) [] FIELDS_TO_ANONYMIZE =
  (JObj [("Patient",
          JObj [("FirstName",
                 JStr "3bc51062973c458d5a6f2d8d64a023246354ad7e064b1e4e009ec8a0699a3043");
                ("Age", JInt 5)])],
   [("3bc51062973c458d5a6f2d8d64a023246354ad7e064b1e4e009ec8a0699a3043",
     JStr "Alice")]).
Proof. vm_compute. reflexivity. Qed.

Lemma anonymize_dict_lookup fields members mapping key value :
  NoDup (dict_keys members) -> In (key, value) members ->
  exists out,
    fst (anonymize_dict (JObj members) mapping fields) = JObj out /\
    dict_keys out = dict_keys members /\
    dict_get key out = Some (member_result fields key value).
Proof.
  intros Hnd Hin. rewrite (anonymize_dict_members fields members mapping Hnd).
  eexists. split; [reflexivity|]. split.
  - unfold dict_keys. rewrite map_map. apply map_ext. now intros [k x].
  - rewrite (dict_get_map (member_result fields)).
    now rewrite (dict_In_get _ _ _ Hnd Hin).
Qed.

Lemma member_result_sensitive fields key value :
  in_fields key fields = true -> value <> JNull ->
  member_result fields key value = JStr (sha256_hexdigest (py_str value)).
Proof.
  intros Hk Hv. apply is_None_false in Hv. unfold member_result.
  now rewrite Hk, Hv.
Qed.

Lemma anonymize_member_sensitive fields key value mapping :
  in_fields key fields = true -> value <> JNull ->
  anonymize_member fields key value mapping =
  (JStr (digest value), remember mapping value).
Proof.
  intros Hk Hv. rewrite anonymize_member_walk, member_result_sensitive by assumption.
  apply is_None_false in Hv. unfold member_values. cbn [fst snd].
  now rewrite Hk, Hv.
Qed.

Lemma remember_twice mapping earlier later :
  digest later = digest earlier ->
  remember (remember mapping earlier) later = remember mapping earlier.
Proof.
  intros Heq. unfold remember at 1. rewrite Heq, remember_mem. reflexivity.
Qed.

(** ** Null values *)

Lemma sensitive_values_not_null fields v : ~ In JNull (sensitive_values fields v).
Proof.
  induction v as [| | | |items IH|members IH] using JSON_ind; cbn; try tauto.
  - intros H. apply in_flat_map in H. destruct H as (item & Hin & H).
    rewrite Forall_forall in IH. destruct (is_dict item); [|destruct H].
    exact (IH item Hin H).
  - intros H. apply in_flat_map in H. destruct H as ([k x] & Hin & H).
    rewrite Forall_forall in IH.
    destruct (in_fields k fields && negb (is_None x)) eqn:E.
    + destruct H as [->|[]]. cbn in E. rewrite andb_false_r in E. discriminate.
    + exact (IH (k, x) Hin H).
Qed.

(** C5: a key whose value is null keeps it: [hash_value] gives None for
    None, the loop leaves the member as it is and records nothing for
    it, and no entry the walk adds has a null original. *)
Theorem null_is_preserved (members : list (string * JSON)) (mapping : Mapping)
  (fields : list string) (key : string) :
  NoDup (dict_keys members) -> In (key, JNull) members ->
  let result := anonymize_dict (JObj members) mapping fields in
  hash_value JNull = None
  /\ (exists out, fst result = JObj out /\ dict_get key out = Some JNull)
  /\ anonymize_member fields key JNull mapping = (JNull, mapping)
  /\ ~ In JNull (sensitive_values fields (JObj members))
  /\ (forall h w, dict_get h (snd result) = Some w ->
                  dict_get h mapping = Some w \/ (w <> JNull /\ h = digest w)).
Proof.
  intros Hnd Hin result. subst result.
  split; [reflexivity|]. split; [|split; [|split]].
  - destruct (anonymize_dict_lookup fields members mapping key JNull Hnd Hin)
      as (out & Hout & _ & Hget).
    exists out. split; [assumption|]. rewrite Hget. unfold member_result.
    cbn. now rewrite andb_false_r.
  - unfold anonymize_member. cbn. now rewrite andb_false_r.
  - apply sensitive_values_not_null.
  - intros h w. rewrite anonymize_dict_walk. cbn [snd is_dict].
    intros H. apply remember_all_origin in H. destruct H as [H|[H1 H2]]; [now left|].
    right. split; [|assumption]. intros ->.
    exact (sensitive_values_not_null _ _ H1).
Qed.

Lemma null_is_preserved_witness :
  NoDup (dict_keys record_example) /\ In ("LastName", JNull) record_example /\
  exists out,
    fst (anonymize_dict (JObj record_example) [] FIELDS_TO_ANONYMIZE) = JObj out /\
    dict_get "LastName" out = Some JNull.
Proof.
  assert (Hnd : NoDup (dict_keys record_example)) by distinct_keys.
  assert (Hin : In ("LastName", JNull) record_example) by (cbn; tauto).
  split; [exact Hnd|]. split; [exact Hin|].
  exact (proj1 (proj2 (null_is_preserved record_example [] FIELDS_TO_ANONYMIZE
                         "LastName" Hnd Hin))).
Defined.

(** ** Sensitive keys holding containers *)

Lemma anonymize_loop_is_dict fields members : forall acc mapping,
  is_dict (fst (anonymize_loop fields members acc mapping)) = true.
Proof.
  induction members as [|[key value] rest IH]; intros acc mapping; [reflexivity|].
  cbn [anonymize_loop]. destruct (anonymize_member _ _ _ _). apply IH.
Qed.

Lemma anonymize_value_keeps_type fields value mapping :
  is_dict value || is_list value = true ->
  is_str (fst (anonymize_value fields value mapping)) = false.
Proof.
  destruct value; cbn [is_dict is_list orb]; try discriminate; intros _.
  - cbn. now destruct (anonymize_items _ _ _).
  - cbn [anonymize_value]. rewrite anonymize_dict_obj.
    pose proof (anonymize_loop_is_dict fields members [] mapping) as H.
    now destruct (fst (anonymize_loop fields members [] mapping)).
Qed.

(** C6: under a sensitive key an object or an array is a leaf: the
    output holds the digest of its string form (its [repr]), the
    mapping records the whole container, and the walk does not go into
    it: the type dispatch, which would return a dict or a list, is not
    taken. *)
Theorem sensitive_container_is_leaf (members : list (string * JSON))
  (mapping : Mapping) (fields : list string) (key : string) (value : JSON) :
  NoDup (dict_keys members) -> In (key, value) members ->
  in_fields key fields = true -> is_dict value || is_list value = true ->
  (exists out,
      fst (anonymize_dict (JObj members) mapping fields) = JObj out /\
      dict_get key out = Some (JStr (sha256_hexdigest (py_repr value))))
  /\ anonymize_member fields key value mapping =
     (JStr (sha256_hexdigest (py_repr value)), remember mapping value)
  /\ In value (sensitive_values fields (JObj members))
  /\ is_str (fst (anonymize_value fields value mapping)) = false.
Proof.
  intros Hnd Hin Hk Hc.
  assert (Hv : value <> JNull) by (intros ->; discriminate).
  assert (Hs : py_str value = py_repr value) by (destruct value; try discriminate; reflexivity).
  rewrite <- Hs. split; [|split; [|split]].
  - destruct (anonymize_dict_lookup fields members mapping key value Hnd Hin)
      as (out & Hout & _ & Hget).
    exists out. split; [assumption|].
    now rewrite Hget, member_result_sensitive.
  - now apply anonymize_member_sensitive.
  - now apply sensitive_member_recorded with key.
  - now apply anonymize_value_keeps_type.
Qed.

Lemma sensitive_container_is_leaf_witness :
  NoDup (dict_keys container_example) /\
  In ("FirstName", JObj [("LastName", JStr "Smith")]) container_example /\
  in_fields "FirstName" FIELDS_TO_ANONYMIZE = true /\
  anonymize_member FIELDS_TO_ANONYMIZE "FirstName"
    (JObj [("LastName", JStr "Smith")]) [] =
  (JStr (sha256_hexdigest "{'LastName': 'Smith'}"),
   remember [] (JObj [("LastName", JStr "Smith")])).
Proof.
  assert (Hnd : NoDup (dict_keys container_example)) by distinct_keys.
  assert (Hin : In ("FirstName", JObj [("LastName", JStr "Smith")]) container_example)
    by (cbn; tauto).
  split; [exact Hnd|]. split; [exact Hin|]. split; [reflexivity|].
  exact (proj1 (proj2 (sensitive_container_is_leaf container_example []
                         FIELDS_TO_ANONYMIZE "FirstName" _ Hnd Hin
                         eq_refl eq_refl))).
Defined.

Example container_example_run :
  anonymize_dict (JObj container_example) [] FIELDS_TO_ANONYMIZE =
  (JObj [("FirstName",
          JStr "36194b5c7d9850f3cbe3ea32ac3123dd26c8830c00bcc24076b6374c3b6e2eac");
         ("Age", JInt 5)],
   [("36194b5c7d9850f3cbe3ea32ac3123dd26c8830c00bcc24076b6374c3b6e2eac",
     JObj [("LastName", JStr "Smith")])]).
Proof. vm_compute. reflexivity. Qed.

(** ** The substituted value *)

(** C10: the value put under a sensitive key that was not null is what
    [hash_value] returns, a str of 64 characters, each one of
    0-9 a-f, whatever the type of the original; an original that is not
    a str is therefore replaced by a value of another type. *)
Theorem substituted_value_is_hex_digest (members : list (string * JSON))
  (mapping : Mapping) (fields : list string) (key : string) (value : JSON) :
  NoDup (dict_keys members) -> In (key, value) members ->
  in_fields key fields = true -> value <> JNull ->
  exists out s,
    fst (anonymize_dict (JObj members) mapping fields) = JObj out /\
    dict_get key out = Some (JStr s) /\
    hash_value value = Some s /\
    String.length s = 64%nat /\
    Forall (fun c => is_lower_hex c = true) (list_ascii_of_string s) /\
    (is_str value = false -> is_str (JStr s) = true /\ JStr s <> value).
Proof.
  intros Hnd Hin Hk Hv.
  destruct (anonymize_dict_lookup fields members mapping key value Hnd Hin)
    as (out & Hout & _ & Hget).
  rewrite member_result_sensitive in Hget by assumption.
  exists out, (sha256_hexdigest (py_str value)).
  destruct (hexdigest_shape (py_str value)) as [Hlen Hhex].
  repeat split; try assumption.
  - apply hash_value_not_None. now apply is_None_false.
  - intros Heq. rewrite <- Heq in *. discriminate.
Qed.

Lemma substituted_value_is_hex_digest_witness :
  NoDup (dict_keys record_example) /\ In ("PatientID", JInt 1) record_example /\
  in_fields "PatientID" FIELDS_TO_ANONYMIZE = true /\ JInt 1 <> JNull /\
  exists out s,
    fst (anonymize_dict (JObj record_example) [] FIELDS_TO_ANONYMIZE) = JObj out /\
    dict_get "PatientID" out = Some (JStr s) /\
    hash_value (JInt 1) = Some s /\
    String.length s = 64%nat /\
    Forall (fun c => is_lower_hex c = true) (list_ascii_of_string s) /\
    (is_str (JInt 1) = false -> is_str (JStr s) = true /\ JStr s <> JInt 1).
Proof.
  assert (Hnd : NoDup (dict_keys record_example)) by distinct_keys.
  assert (Hin : In ("PatientID", JInt 1) record_example) by (cbn; tauto).
  assert (Hv : JInt 1 <> JNull) by discriminate.
  split; [exact Hnd|]. split; [exact Hin|]. split; [reflexivity|].
  split; [exact Hv|].
  exact (substituted_value_is_hex_digest record_example [] FIELDS_TO_ANONYMIZE
           "PatientID" (JInt 1) Hnd Hin eq_refl Hv).
Defined.

(** ** Running the anonymizer on its own output *)

Lemma anonymize_twice fields members key value :
  NoDup (dict_keys members) -> In (key, value) members ->
  in_fields key fields = true -> value <> JNull ->
  exists once twice,
    fst (anonymize_dict (JObj members) [] fields) = JObj once /\
    fst (anonymize_dict (JObj once) [] fields) = JObj twice /\
    dict_get key once = Some (JStr (sha256_hexdigest (py_str value))) /\
    dict_get key twice =
      Some (JStr (sha256_hexdigest (sha256_hexdigest (py_str value)))).
Proof.
  intros Hnd Hin Hk Hv.
  destruct (anonymize_dict_lookup fields members [] key value Hnd Hin)
    as (once & Hone & Hkeys & Hget).
  rewrite member_result_sensitive in Hget by assumption.
  assert (Hnd' : NoDup (dict_keys once)) by now rewrite Hkeys.
  destruct (anonymize_dict_lookup fields once [] key _ Hnd' (dict_get_In _ _ _ Hget))
    as (twice & Htwo & _ & Hget').
  rewrite member_result_sensitive in Hget' by (assumption || discriminate).
  now exists once, twice.
Qed.

(** C9: anonymization is not idempotent.  Whenever a sensitive key has
    a value that is not null, a second pass puts the digest of the
    digest under that key; and on [{"FirstName": "Alice"}] the second
    pass returns a document different from the first. *)
Theorem anonymization_not_idempotent :
  (forall members key value,
      NoDup (dict_keys members) -> In (key, value) members ->
      in_fields key FIELDS_TO_ANONYMIZE = true -> value <> JNull ->
      exists once twice,
        fst (anonymize_dict (JObj members) [] FIELDS_TO_ANONYMIZE) = JObj once /\
        fst (anonymize_dict (JObj once) [] FIELDS_TO_ANONYMIZE) = JObj twice /\
        dict_get key once = Some (JStr (sha256_hexdigest (py_str value))) /\
        dict_get key twice =
          Some (JStr (sha256_hexdigest (sha256_hexdigest (py_str value)))))
  /\ exists x,
       let once := fst (anonymize_dict x [] FIELDS_TO_ANONYMIZE) in
       let twice := fst (anonymize_dict once [] FIELDS_TO_ANONYMIZE) in
       x = JObj [("FirstName", JStr "Alice")] /\
       once =
         JObj [("FirstName",
                JStr "3bc51062973c458d5a6f2d8d64a023246354ad7e064b1e4e009ec8a0699a3043")] /\
       twice =
         JObj [("FirstName",
                JStr "150653f51df5e2aa0bda45b6f68ab4fd2c9c5620042baf6124bf5af302780115")] /\
       twice <> once.
Proof.
  split; [intros; now apply anonymize_twice|].
  exists (JObj [("FirstName", JStr "Alice")]).
  split; [reflexivity|]. split; [vm_compute; reflexivity|].
  split; [vm_compute; reflexivity|].
  vm_compute. discriminate.
Qed.

Lemma anonymization_not_idempotent_witness :
  NoDup (dict_keys [("FirstName", JStr "Alice")]) /\
  In ("FirstName", JStr "Alice") [("FirstName", JStr "Alice")] /\
  in_fields "FirstName" FIELDS_TO_ANONYMIZE = true /\ JStr "Alice" <> JNull /\
  exists once twice,
    fst (anonymize_dict alice [] FIELDS_TO_ANONYMIZE) = JObj once /\
    fst (anonymize_dict (JObj once) [] FIELDS_TO_ANONYMIZE) = JObj twice /\
    dict_get "FirstName" once = Some (JStr (sha256_hexdigest "Alice")) /\
    dict_get "FirstName" twice =
      Some (JStr (sha256_hexdigest (sha256_hexdigest "Alice"))).
Proof.
  assert (Hnd : NoDup (dict_keys [("FirstName", JStr "Alice")])) by distinct_keys.
  assert (Hin : In ("FirstName", JStr "Alice") [("FirstName", JStr "Alice")])
    by (cbn; tauto).
  assert (Hv : JStr "Alice" <> JNull) by discriminate.
  split; [exact Hnd|]. split; [exact Hin|]. split; [reflexivity|].
  split; [exact Hv|].
  exact (proj1 anonymization_not_idempotent _ "FirstName" (JStr "Alice")
           Hnd Hin eq_refl Hv).
Defined.

(** ** JSONL files *)

Lemma append_assoc (a b c : string) : (a +++ b) +++ c = a +++ b +++ c.
Proof. induction a; cbn; congruence. Qed.

Lemma append_nil_r (a : string) : a +++ "" = a.
Proof. induction a; cbn; congruence. Qed.

Lemma append_length (a b : string) :
  String.length (a +++ b) = (String.length a + String.length b)%nat.
Proof. induction a; cbn; congruence. Qed.

Lemma temp_file_differs (file_path : string) : file_path +++ ".tmp" <> file_path.
Proof.
  intros H. apply (f_equal String.length) in H. rewrite append_length in H.
  cbn in H. lia.
Qed.

Lemma os_replace_get (src dst : string) (content : string) (fs : FS) :
  dict_get dst (os_replace src dst (dict_set src content fs)) = Some content.
Proof.
  unfold os_replace. rewrite dict_get_set_same. apply dict_get_set_same.
Qed.

Section JsonlFacts.
Context {J : JsonLib}.
Variable fields : list string.

Lemma jsonl_loop_parsed lines : forall docs count out mapping,
  map json_loads (filter strip_nonempty lines) = map Some docs ->
  jsonl_loop lines count out mapping fields =
  (Ok (count + List.length docs)%nat, out +++ rendered fields docs,
   fold_left remember (flat_map (document_values fields) docs) mapping).
Proof.
  induction lines as [|line rest IH]; intros docs count out mapping Hdocs.
  - destruct docs; [|discriminate]. cbn.
    now rewrite Nat.add_0_r, append_nil_r.
  - cbn [jsonl_loop filter] in *.
    destruct (strip_nonempty line); [|now apply IH].
    destruct docs as [|d docs]; [discriminate|].
    cbn [map] in Hdocs. injection Hdocs as Hd Hrest. rewrite Hd.
    rewrite anonymize_dict_walk. rewrite (IH docs) by assumption.
    cbn [List.length flat_map map]. rewrite fold_left_app.
    unfold rendered, document_values, anonymized.
    cbn [map join_lines]. rewrite !append_assoc.
    f_equal. f_equal. f_equal. lia.
Qed.

Lemma jsonl_loop_malformed pre bad post : forall docs count out mapping,
  map json_loads (filter strip_nonempty pre) = map Some docs ->
  strip_nonempty bad = true -> json_loads bad = None ->
  jsonl_loop (pre ++ bad :: post) count out mapping fields =
  (Raise JSONDecodeError, out +++ rendered fields docs,
   fold_left remember (flat_map (document_values fields) docs) mapping).
Proof.
  induction pre as [|line rest IH]; intros docs count out mapping Hdocs Hnb Hbad.
  - destruct docs; [|discriminate]. cbn. rewrite Hnb, Hbad.
    now rewrite append_nil_r.
  - cbn [jsonl_loop filter app] in *.
    destruct (strip_nonempty line); [|now apply IH].
    destruct docs as [|d docs]; [discriminate|].
    cbn [map] in Hdocs. injection Hdocs as Hd Hrest. rewrite Hd.
    rewrite anonymize_dict_walk. rewrite (IH docs) by assumption.
    cbn [flat_map map]. rewrite fold_left_app.
    unfold rendered, document_values, anonymized.
    cbn [map join_lines]. now rewrite !append_assoc.
Qed.

(** C3: on a file that can be read, blank lines are skipped and every
    other line is parsed and anonymized as a document of its own.  When
    all of them parse, the call returns their number and the file holds
    one serialised line per document.  When one does not parse, the
    error is raised there: the mapping has only what the lines before it
    recorded, whatever follows, the original file is as it was, and the
    only change is the temporary file with the lines written so far. *)
Theorem process_jsonl_file_contract (file_path : string) (mapping : Mapping)
  (fs : FS) (text : string) :
  read_text file_path fs = Some text ->
  let lines := readlines text in
  let result := process_jsonl_file file_path mapping fields fs in
  (forall docs,
      map json_loads (filter strip_nonempty lines) = map Some docs ->
      fst (fst result) = Ok (List.length (filter strip_nonempty lines))
      /\ dict_get file_path (snd (fst result)) = Some (rendered fields docs)
      /\ snd result =
         fold_left remember (flat_map (document_values fields) docs) mapping)
  /\ (forall pre bad post docs,
        lines = pre ++ bad :: post ->
        map json_loads (filter strip_nonempty pre) = map Some docs ->
        strip_nonempty bad = true -> json_loads bad = None ->
        fst (fst result) = Raise JSONDecodeError
        /\ snd (fst result) = dict_set (file_path +++ ".tmp") (rendered fields docs) fs
        /\ dict_get file_path (snd (fst result)) = dict_get file_path fs
        /\ snd result =
           fold_left remember (flat_map (document_values fields) docs) mapping).
Proof.
  intros Hread lines result. subst lines result.
  unfold process_jsonl_file. rewrite Hread. split.
  - intros docs Hdocs. rewrite (jsonl_loop_parsed _ docs) by assumption.
    cbn [fst snd]. split; [|split; [|reflexivity]].
    + f_equal. cbn. rewrite <- (length_map json_loads), Hdocs.
      now rewrite length_map.
    + apply os_replace_get.
  - intros pre bad post docs Hlines Hdocs Hnb Hbad. rewrite Hlines.
    rewrite (jsonl_loop_malformed pre bad post docs) by assumption.
    cbn [fst snd]. repeat split.
    apply dict_get_set_other, temp_file_differs.
Qed.

End JsonlFacts.

Lemma process_jsonl_file_contract_witness :
  (read_text "data_1.jsonl" sample_fs = Some good_text /\
   map loads_known (filter strip_nonempty (readlines good_text)) =
     map Some [JObj nested_example; alice] /\
   fst (fst (process_jsonl_file (J := ascii_json) "data_1.jsonl" []
               FIELDS_TO_ANONYMIZE sample_fs)) = Ok 2%nat)
  /\
  (read_text "data_2.jsonl" [("data_2.jsonl", bad_text)] = Some bad_text /\
   readlines bad_text =
     [jsonl_line alice] ++ ("{oops" +++ str1 LF) :: [jsonl_line (JObj record_example)] /\
   loads_known ("{oops" +++ str1 LF) = None /\
   let result := process_jsonl_file (J := ascii_json) "data_2.jsonl" []
                   FIELDS_TO_ANONYMIZE [("data_2.jsonl", bad_text)] in
   fst (fst result) = Raise JSONDecodeError /\
   dict_get "data_2.jsonl" (snd (fst result)) = Some bad_text /\
   snd result = [(digest (JStr "Alice"), JStr "Alice")]).
Proof.
  split.
  - assert (Hread : read_text "data_1.jsonl" sample_fs = Some good_text)
      by (vm_compute; reflexivity).
    assert (Hdocs : map loads_known (filter strip_nonempty (readlines good_text)) =
                    map Some [JObj nested_example; alice])
      by (vm_compute; reflexivity).
    split; [exact Hread|]. split; [exact Hdocs|].
    destruct (process_jsonl_file_contract (J := ascii_json) FIELDS_TO_ANONYMIZE
                "data_1.jsonl" [] sample_fs good_text Hread) as [Hgood _].
    destruct (Hgood _ Hdocs) as (Hcount & _). rewrite Hcount.
    vm_compute. reflexivity.
  - assert (Hread : read_text "data_2.jsonl" [("data_2.jsonl", bad_text)] =
                    Some bad_text) by (vm_compute; reflexivity).
    assert (Hlines : readlines bad_text =
                     [jsonl_line alice] ++ ("{oops" +++ str1 LF)
                       :: [jsonl_line (JObj record_example)])
      by (vm_compute; reflexivity).
    assert (Hbad : loads_known ("{oops" +++ str1 LF) = None)
      by (vm_compute; reflexivity).
    split; [exact Hread|]. split; [exact Hlines|]. split; [exact Hbad|].
    destruct (process_jsonl_file_contract (J := ascii_json) FIELDS_TO_ANONYMIZE
                "data_2.jsonl" [] _ bad_text Hread) as [_ Hfail].
    destruct (Hfail _ _ _ [alice] Hlines ltac:(vm_compute; reflexivity)
                ltac:(vm_compute; reflexivity) Hbad) as (Hres & _ & Hfile & Hmap).
    cbv zeta. rewrite Hres, Hfile, Hmap.
    split; [reflexivity|]. split; vm_compute; reflexivity.
Defined.

(** ** The run *)

Section MainFacts.
Context {J : JsonLib}.
Variable fields : list string.

(** C4, as the code has it: a file with the extension .json whose name
    contains systeminfo is skipped before it is opened: whatever the
    json module and the file are, the step only prints its message, so
    the files, the mapping and the record count are as before and the
    run goes on with the next file.  The test is made in the .json
    branch only: a file with the extension .jsonl goes to
    [process_jsonl_file] whatever its name. *)
Theorem systeminfo_json_is_skipped (file_path : string) (st : Run) :
  (path_suffix file_path = ".json" -> contains "systeminfo" file_path = true ->
   let skipped := print ("  Skipping " +++ file_path +++ " (system info file)") st in
   process_file fields file_path st = (Ok tt, skipped)
   /\ run_fs skipped = run_fs st
   /\ run_mapping skipped = run_mapping st
   /\ total_records skipped = total_records st
   /\ forall rest,
        process_files fields (file_path :: rest) st =
        process_files fields rest skipped)
  /\ (path_suffix file_path = ".jsonl" ->
      process_file fields file_path st =
      match process_jsonl_file file_path (run_mapping st) fields (run_fs st) with
      | (Ok count, fs, mapping) =>
          (Ok tt,
           print ("  Processed " +++ str_nat count +++ " records from " +++ file_path)
                 (mkRun fs mapping (total_records st + count) (stdout st)))
      | (Raise e, fs, mapping) =>
          (Raise e, mkRun fs mapping (total_records st) (stdout st))
      end).
Proof.
  split.
  - intros Hext Hname skipped.
    assert (Hstep : process_file fields file_path st = (Ok tt, skipped)).
    { unfold process_file. rewrite Hext, Hname. reflexivity. }
    split; [exact Hstep|]. repeat split.
    intros rest. cbn [process_files]. now rewrite Hstep.
  - intros Hext. unfold process_file. rewrite Hext. reflexivity.
Qed.

(** C7: a .json file whose document is neither a list nor a dict is
    not an error: [process_json_file] returns False and leaves the
    files and the mapping as they are, no temporary file included; the
    loop of [main] prints that the file was skipped and goes on with
    the files that follow. *)
Theorem scalar_json_file_is_skipped (file_path : string) (mapping : Mapping)
  (fs : FS) (text : string) (data : JSON) :
  read_text file_path fs = Some text -> json_loads text = Some data ->
  is_dict data = false -> is_list data = false ->
  process_json_file file_path mapping fields fs = (Ok false, fs, mapping)
  /\ (path_suffix file_path = ".json" -> contains "systeminfo" file_path = false ->
      forall rest total out,
        process_files fields (file_path :: rest) (mkRun fs mapping total out) =
        process_files fields rest
          (print ("  Skipped " +++ file_path +++ " (unexpected format)")
                 (mkRun fs mapping total out))).
Proof.
  intros Hread Hparse Hd Hl.
  assert (Hfile : process_json_file file_path mapping fields fs = (Ok false, fs, mapping)).
  { unfold process_json_file. rewrite Hread, Hparse.
    destruct data; try discriminate; reflexivity. }
  split; [exact Hfile|].
  intros Hext Hname rest total out.
  cbn [process_files]. unfold process_file. cbn [run_fs run_mapping].
  rewrite Hext, Hname, Hfile. reflexivity.
Qed.

End MainFacts.

Lemma systeminfo_json_is_skipped_witness :
  (path_suffix "failed_patients_systeminfo.json" = ".json" /\
   contains "systeminfo" "failed_patients_systeminfo.json" = true /\
   process_file (J := ascii_json) FIELDS_TO_ANONYMIZE
     "failed_patients_systeminfo.json" (mkRun sample_fs [] 0 []) =
   (Ok tt,
    mkRun sample_fs [] 0
      ["  Skipping failed_patients_systeminfo.json (system info file)"]))
  /\
  (path_suffix "data_systeminfo.jsonl" = ".jsonl" /\
   total_records
     (snd (process_file (J := ascii_json) FIELDS_TO_ANONYMIZE
             "data_systeminfo.jsonl" (mkRun sample_fs [] 0 []))) = 1%nat).
Proof.
  split.
  - split; [reflexivity|]. split; [reflexivity|].
    exact (proj1 (proj1 (systeminfo_json_is_skipped (J := ascii_json)
                           FIELDS_TO_ANONYMIZE "failed_patients_systeminfo.json"
                           (mkRun sample_fs [] 0 [])) eq_refl eq_refl)).
  - split; [reflexivity|].
    rewrite (proj2 (systeminfo_json_is_skipped (J := ascii_json)
                      FIELDS_TO_ANONYMIZE "data_systeminfo.jsonl"
                      (mkRun sample_fs [] 0 [])) eq_refl).
    vm_compute. reflexivity.
Defined.

(** A .jsonl file whose name contains systeminfo is processed like any
    other: [main] rewrites it, records its values and counts its
    records. *)
Lemma systeminfo_jsonl_is_processed :
  let fs := [("data_systeminfo.jsonl", jsonl_line alice)] in
  let st := snd (main (J := ascii_json) fs) in
  contains "systeminfo" "data_systeminfo.jsonl" = true /\
  glob "data_" ".jsonl" fs = ["data_systeminfo.jsonl"] /\
  fst (main (J := ascii_json) fs) = Ok tt /\
  dict_get "data_systeminfo.jsonl" (run_fs st) =
    Some (jsonl_line
            (JObj [("FirstName",
                    JStr "3bc51062973c458d5a6f2d8d64a023246354ad7e064b1e4e009ec8a0699a3043")])) /\
  dict_get "data_systeminfo.jsonl" (run_fs st) <> dict_get "data_systeminfo.jsonl" fs /\
  run_mapping st =
    [("3bc51062973c458d5a6f2d8d64a023246354ad7e064b1e4e009ec8a0699a3043", JStr "Alice")] /\
  total_records st = 1%nat.
Proof.
  vm_compute. repeat split. discriminate.
Qed.

Lemma scalar_json_file_is_skipped_witness :
  read_text "failed_patients_1.json" sample_fs = Some "42" /\
  json_loads (JsonLib := ascii_json) "42" = Some (JInt 42) /\
  path_suffix "failed_patients_1.json" = ".json" /\
  contains "systeminfo" "failed_patients_1.json" = false /\
  process_json_file (J := ascii_json) "failed_patients_1.json" []
    FIELDS_TO_ANONYMIZE sample_fs = (Ok false, sample_fs, []) /\
  process_files (J := ascii_json) FIELDS_TO_ANONYMIZE
    ["failed_patients_1.json"; "failed_treatments_1.json"] (mkRun sample_fs [] 0 []) =
  process_files (J := ascii_json) FIELDS_TO_ANONYMIZE ["failed_treatments_1.json"]
    (mkRun sample_fs [] 0 ["  Skipped failed_patients_1.json (unexpected format)"]).
Proof.
  assert (Hread : read_text "failed_patients_1.json" sample_fs = Some "42")
    by (vm_compute; reflexivity).
  assert (Hparse : json_loads (JsonLib := ascii_json) "42" = Some (JInt 42))
    by (vm_compute; reflexivity).
  split; [exact Hread|]. split; [exact Hparse|].
  split; [reflexivity|]. split; [reflexivity|].
  destruct (scalar_json_file_is_skipped (J := ascii_json) FIELDS_TO_ANONYMIZE
              "failed_patients_1.json" [] sample_fs "42" (JInt 42)
              Hread Hparse eq_refl eq_refl) as [Hfile Hrun].
  split; [exact Hfile|].
  exact (Hrun eq_refl eq_refl ["failed_treatments_1.json"] 0%nat []).
Defined.

(** The run over the sample directory: the scalar file and the
    systeminfo .json file are as they were, the others are rewritten,
    and the mapping is saved. *)
Example sample_run :
  let st := snd (main (J := ascii_json) sample_fs) in
  fst (main (J := ascii_json) sample_fs) = Ok tt /\
  dict_get "failed_patients_1.json" (run_fs st) = Some "42" /\
  dict_get "failed_patients_systeminfo.json" (run_fs st) = Some (jsonl_line alice) /\
  dict_get "data_systeminfo.jsonl" (run_fs st) <> Some (jsonl_line alice) /\
  total_records st = 3%nat /\
  run_mapping st = [(sha256_hexdigest "Alice", JStr "Alice")] /\
  stdout st =
    ["Found 5 file(s) to process:"; "  - data_1.jsonl";
     "  - data_systeminfo.jsonl"; "  - failed_treatments_1.json";
     "  - failed_patients_1.json"; "  - failed_patients_systeminfo.json";
     "  Processed 2 records from data_1.jsonl";
     "  Processed 1 records from data_systeminfo.jsonl";
     "  Processed failed_treatments_1.json";
     "  Skipped failed_patients_1.json (unexpected format)";
     "  Skipping failed_patients_systeminfo.json (system info file)";
     str1 LF +++ "Anonymization complete!"; "  Total unique values hashed: 1";
     "  Total records processed: 3";
     "  Mapping saved to: anonymization_mapping.json"].
Proof.
  vm_compute. repeat split. discriminate.
Qed.

(** ** The saved mapping *)

Lemma remember_digest_keyed mapping value :
  digest_keyed mapping -> digest_keyed (remember mapping value).
Proof.
  unfold remember, digest_keyed. intros H.
  destruct (dict_mem (digest value) mapping) eqn:E; cbn; [assumption|].
  rewrite dict_set_absent.
  - apply Forall_app. split; [assumption|]. now repeat constructor.
  - rewrite <- dict_mem_keys. congruence.
Qed.

Lemma remember_all_digest_keyed values : forall mapping,
  digest_keyed mapping -> digest_keyed (fold_left remember values mapping).
Proof.
  induction values as [|v vs IH]; cbn; intros; [assumption|].
  now apply IH, remember_digest_keyed.
Qed.

(** The mapping a call leaves is keyed by digests, one entry per key,
    when the mapping it was given is; the empty mapping of [main] is. *)
Lemma anonymize_dict_digest_keyed data mapping fields :
  NoDup (dict_keys mapping) -> digest_keyed mapping ->
  NoDup (dict_keys (snd (anonymize_dict data mapping fields))) /\
  digest_keyed (snd (anonymize_dict data mapping fields)).
Proof.
  intros Hnd Hk. rewrite anonymize_dict_walk. cbn [snd]. split.
  - now apply remember_all_NoDup.
  - now apply remember_all_digest_keyed.
Qed.

Lemma digest_keyed_originals_distinct mapping :
  NoDup (dict_keys mapping) -> digest_keyed mapping -> NoDup (map snd mapping).
Proof.
  intros Hnd Hk. apply (NoDup_map_inv digest).
  replace (map digest (map snd mapping)) with (dict_keys mapping); [assumption|].
  unfold dict_keys. rewrite map_map. apply map_ext_in.
  intros e He. unfold digest_keyed in Hk. rewrite Forall_forall in Hk. now apply Hk.
Qed.

Lemma key_eqb_str s k : key_eqb (JStr s) k = true -> k = JStr s.
Proof.
  destruct k; cbn; try discriminate. intros H. apply String.eqb_eq in H. now subst.
Qed.

Lemma key_eqb_str_r s k : key_eqb k (JStr s) = true -> k = JStr s.
Proof.
  destruct k; cbn; try discriminate. intros H. apply String.eqb_eq in H. now subst.
Qed.

Lemma pydict_set_new_str {V : Type} s (v : V) d :
  ~ In (JStr s) (map fst d) -> pydict_set (JStr s) v d = d ++ [(JStr s, v)].
Proof.
  induction d as [|[k' v'] d IH]; cbn [pydict_set map fst app]; intros H;
    [reflexivity|].
  destruct (key_eqb (JStr s) k') eqn:E.
  - apply key_eqb_str in E. subst. cbn in H. tauto.
  - rewrite IH; [reflexivity|]. cbn in H. tauto.
Qed.

Lemma reverse_comprehension_strs items : forall acc,
  Forall (fun e => is_str (snd e) = true) items ->
  NoDup (map fst acc ++ map snd items) ->
  reverse_comprehension items acc = Ok (acc ++ map swap items).
Proof.
  induction items as [|[h v] rest IH]; intros acc Hstr Hnd.
  - cbn. now rewrite app_nil_r.
  - inversion Hstr as [|? ? Hv Hrest]; subst. cbn [snd] in Hv.
    destruct v; try discriminate. cbn [reverse_comprehension hashable].
    cbn [map snd] in Hnd.
    rewrite pydict_set_new_str.
    + rewrite IH; [|assumption|].
      * now rewrite <- app_assoc.
      * rewrite map_app, <- app_assoc. exact Hnd.
    + intros Hin. apply NoDup_remove_2 in Hnd. apply Hnd, in_or_app. now left.
Qed.

Lemma pydict_get_swap mapping : forall h v,
  Forall (fun e => is_str (snd e) = true) mapping ->
  NoDup (dict_keys mapping) -> NoDup (map snd mapping) ->
  (dict_get h mapping = Some v <-> pydict_get v (map swap mapping) = Some h).
Proof.
  induction mapping as [|[h0 v0] rest IH]; intros h v Hstr Hk Hv.
  - cbn. split; discriminate.
  - inversion Hstr as [|? ? Hs Hstr']; subst. cbn [snd] in Hs.
    inversion Hk as [|? ? Hk1 Hk2]; subst. inversion Hv as [|? ? Hv1 Hv2]; subst.
    destruct v0 as [| | |s0| |]; try discriminate.
    cbn [dict_get pydict_get map swap fst snd].
    specialize (IH h v Hstr' Hk2 Hv2).
    destruct (String.eqb h h0) eqn:Eh; destruct (key_eqb v (JStr s0)) eqn:Ev.
    + apply String.eqb_eq in Eh. apply key_eqb_str_r in Ev. subst.
      split; reflexivity.
    + apply String.eqb_eq in Eh. subst h0.
      split.
      * intros [= <-]. cbn in Ev. rewrite String.eqb_refl in Ev. discriminate.
      * intros H. apply IH, dict_get_In in H.
        exfalso. apply Hk1. change h with (fst (h, v)). now apply in_map.
    + apply key_eqb_str_r in Ev. subst v.
      split.
      * intros H. apply dict_get_In in H.
        exfalso. apply Hv1. change (JStr s0) with (snd (h, JStr s0)). now apply in_map.
      * intros [= ->]. rewrite String.eqb_refl in Eh. discriminate.
    + exact IH.
Qed.

Section SaveMapping.
Context {J : JsonLib}.

(** What the declared type [Dict[str, str]] promises: when the originals
    stored in the mapping are strings, [save_mapping] writes a document
    whose two halves are exact inverses of each other:
    [original_to_hash] binds an original to a digest exactly when
    [hash_to_original] binds that digest to that original, both have as
    many entries as the mapping, and [total_mappings] is that number.
    The mapping is one the run builds: one entry per key, each key the
    digest of its original. *)
Theorem save_mapping_inverse (mapping : Mapping) (output_file : string) (fs : FS) :
  NoDup (dict_keys mapping) -> digest_keyed mapping ->
  Forall (fun e => is_str (snd e) = true) mapping ->
  exists md reverse_document,
    build_mapping_data mapping = Ok md
    /\ save_mapping mapping output_file fs =
       (Ok tt, dict_set output_file (json_dump_indent (mapping_document md)) fs)
    /\ mapping_document md =
       JObj [ ("hash_to_original", JObj mapping);
              ("original_to_hash", JObj reverse_document);
              ("total_mappings", JInt (Z.of_nat (List.length mapping))) ]
    /\ List.length reverse_document = List.length mapping
    /\ (forall h v, dict_get h (hash_to_original md) = Some v <->
                    pydict_get v (original_to_hash md) = Some h)
    /\ (forall h s, dict_get h mapping = Some (JStr s) <->
                    dict_get s reverse_document = Some (JStr h)).
Proof.
  intros Hnd Hk Hstr.
  pose proof (digest_keyed_originals_distinct mapping Hnd Hk) as Hv.
  assert (Hrev : reverse_comprehension mapping [] = Ok (map swap mapping))
    by (now apply reverse_comprehension_strs).
  exists (mkMappingData mapping (map swap mapping) (List.length mapping)).
  exists (map (fun kh => (json_key (fst kh), JStr (snd kh))) (map swap mapping)).
  unfold save_mapping, build_mapping_data. rewrite Hrev.
  split; [reflexivity|]. split; [reflexivity|]. split; [reflexivity|].
  split; [now rewrite !length_map|]. split.
  - intros h v. cbn [hash_to_original original_to_hash].
    now apply pydict_get_swap.
  - clear Hrev. induction mapping as [|[h0 v0] rest IH]; intros h s.
    + cbn. split; discriminate.
    + inversion Hstr as [|? ? Hs Hstr']; subst. cbn [snd] in Hs.
      inversion Hnd as [|? ? Hk1 Hk2]; subst. inversion Hv as [|? ? Hv1 Hv2]; subst.
      inversion Hk as [|? ? _ Hk']; subst.
      destruct v0 as [| | |s0| |]; try discriminate.
      cbn [dict_get map swap fst snd json_key].
      specialize (IH Hk2 Hk' Hstr' Hv2 h s).
      destruct (String.eqb h h0) eqn:Eh; destruct (String.eqb s s0) eqn:Es.
      * apply String.eqb_eq in Eh, Es. subst. split; reflexivity.
      * apply String.eqb_eq in Eh. subst h0. split.
        -- intros [= <-]. rewrite String.eqb_refl in Es. discriminate.
        -- intros H. apply IH, dict_get_In in H.
           exfalso. apply Hk1. change h with (fst (h, JStr s)). now apply in_map.
      * apply String.eqb_eq in Es. subst s0. split.
        -- intros H. apply dict_get_In in H.
           exfalso. apply Hv1. change (JStr s) with (snd (h, JStr s)).
           now apply in_map.
        -- intros [= ->]. rewrite String.eqb_refl in Eh. discriminate.
      * exact IH.
Qed.

End SaveMapping.

Lemma save_mapping_inverse_witness :
  let mapping := snd (anonymize_dict (JObj nested_example) [] FIELDS_TO_ANONYMIZE) in
  NoDup (dict_keys mapping) /\ digest_keyed mapping /\
  Forall (fun e => is_str (snd e) = true) mapping /\
  exists md reverse_document,
    build_mapping_data mapping = Ok md
    /\ save_mapping (J := ascii_json) mapping "anonymization_mapping.json" [] =
       (Ok tt, dict_set "anonymization_mapping.json"
                 (json_dump_indent (JsonLib := ascii_json) (mapping_document md)) [])
    /\ mapping_document md =
       JObj [ ("hash_to_original", JObj mapping);
              ("original_to_hash", JObj reverse_document);
              ("total_mappings", JInt (Z.of_nat (List.length mapping))) ]
    /\ List.length reverse_document = List.length mapping
    /\ (forall h v, dict_get h (hash_to_original md) = Some v <->
                    pydict_get v (original_to_hash md) = Some h)
    /\ (forall h s, dict_get h mapping = Some (JStr s) <->
                    dict_get s reverse_document = Some (JStr h)).
Proof.
  cbv zeta.
  destruct (anonymize_dict_digest_keyed (JObj nested_example) []
              FIELDS_TO_ANONYMIZE (NoDup_nil _) (Forall_nil _)) as [Hnd Hk].
  assert (Hstr : Forall (fun e => is_str (snd e) = true)
                   (snd (anonymize_dict (JObj nested_example) [] FIELDS_TO_ANONYMIZE)))
    by (vm_compute; repeat constructor).
  split; [exact Hnd|]. split; [exact Hk|]. split; [exact Hstr|].
  exact (save_mapping_inverse (J := ascii_json) _ "anonymization_mapping.json" []
           Hnd Hk Hstr).
Defined.

(** C8: the code breaks the inverse it means to build.  [anonymize_dict]
    stores the raw value, not its string, although the mapping is
    declared [Dict[str, str]] and [save_mapping] says it creates the
    reverse mapping original -> hash.  From the file
    [{"PatientID": 1, "FirstName": true}] the mapping gets two entries,
    the originals 1 and True; as dict keys they are equal, so the saved
    document has two entries in [hash_to_original], one in
    [original_to_hash] and 2 as [total_mappings], and it sends 1 to the
    digest of True rather than to its own. *)
Lemma bool_int_originals_collapse :
  let mapping := snd (anonymize_dict (JObj bool_int_example) [] FIELDS_TO_ANONYMIZE) in
  exists md,
    build_mapping_data mapping = Ok md /\
    mapping_document md =
      JObj [ ("hash_to_original",
              JObj [("6b86b273ff34fce19d6b804eff5a3f5747ada4eaa22f1d49c01e52ddb7875b4b",
                     JInt 1);
                    ("3cbc87c7681f34db4617feaa2c8801931bc5e42d8d0f560e756dd4cd92885f18",
                     JBool true)]);
             ("original_to_hash",
              JObj [("1",
                     JStr "3cbc87c7681f34db4617feaa2c8801931bc5e42d8d0f560e756dd4cd92885f18")]);
             ("total_mappings", JInt 2) ] /\
    original_to_hash md =
      [(JInt 1, "3cbc87c7681f34db4617feaa2c8801931bc5e42d8d0f560e756dd4cd92885f18")] /\
    ~ (forall h v, dict_get h (hash_to_original md) = Some v ->
                   pydict_get v (original_to_hash md) = Some h) /\
    dict_get "anonymization_mapping.json"
      (run_fs (snd (main (J := ascii_json)
                      [("failed_patients_1.json",
                        json_text false true 0 (JObj bool_int_example))]))) =
      Some (json_text true false 0 (mapping_document md)).
Proof.
  cbv zeta. eexists. split; [vm_compute; reflexivity|].
  split; [reflexivity|]. split; [reflexivity|]. split.
  - intros H.
    specialize (H "6b86b273ff34fce19d6b804eff5a3f5747ada4eaa22f1d49c01e52ddb7875b4b"
                  (JInt 1) eq_refl).
    vm_compute in H. discriminate.
  - vm_compute. reflexivity.
Qed.

(** A dict or a list stored as an original cannot be a key of the
    reverse mapping: [save_mapping] raises before it writes. *)
Example container_original_raises :
  save_mapping (J := ascii_json)
    (snd (anonymize_dict (JObj container_example) [] FIELDS_TO_ANONYMIZE))
    "anonymization_mapping.json" [] = (Raise TypeError, []).
Proof. vm_compute. reflexivity. Qed.

(** ** The mapping over a run *)

Section RunMapping.
Context {J : JsonLib}.
Variable fields : list string.

Lemma jsonl_loop_grows lines : forall count out mapping,
  exists values,
    snd (jsonl_loop lines count out mapping fields) = fold_left remember values mapping.
Proof.
  induction lines as [|line rest IH]; intros count out mapping.
  - now exists [].
  - cbn [jsonl_loop]. destruct (strip_nonempty line); [|apply IH].
    destruct (json_loads line) as [data|]; [|now exists []].
    rewrite anonymize_dict_walk.
    destruct (IH (count + 1)%nat
                 (out +++ json_dumps (anonymized fields data) +++ str1 LF)
                 (fold_left remember (document_values fields data) mapping))
      as [values Hv].
    exists (document_values fields data ++ values).
    now rewrite fold_left_app.
Qed.

Lemma process_jsonl_file_grows file_path mapping fs :
  exists values,
    snd (process_jsonl_file file_path mapping fields fs) =
    fold_left remember values mapping.
Proof.
  unfold process_jsonl_file.
  destruct (read_text file_path fs) as [text|]; [|now exists []].
  destruct (jsonl_loop_grows (readlines text) 0 "" mapping) as [values Hv].
  exists values.
  destruct (jsonl_loop _ _ _ _ _) as [[[count|e] out] m]; exact Hv.
Qed.

Lemma process_json_file_grows file_path mapping fs :
  exists values,
    snd (process_json_file file_path mapping fields fs) =
    fold_left remember values mapping.
Proof.
  unfold process_json_file.
  destruct (read_text file_path fs) as [text|]; [|now exists []].
  destruct (json_loads text) as [data|]; [|now exists []].
  destruct data; try now exists [].
  - rewrite anonymize_items_walk. now eexists.
  - rewrite anonymize_dict_walk. now eexists.
Qed.

Lemma process_file_grows file_path st :
  exists values,
    run_mapping (snd (process_file fields file_path st)) =
    fold_left remember values (run_mapping st).
Proof.
  unfold process_file.
  destruct (String.eqb (path_suffix file_path) ".jsonl").
  - destruct (process_jsonl_file_grows file_path (run_mapping st) (run_fs st))
      as [values Hv].
    exists values.
    destruct (process_jsonl_file _ _ _ _) as [[[count|e] fs] m]; exact Hv.
  - destruct (String.eqb (path_suffix file_path) ".json"); [|now exists []].
    destruct (contains "systeminfo" file_path); [now exists []|].
    destruct (process_json_file_grows file_path (run_mapping st) (run_fs st))
      as [values Hv].
    exists values.
    destruct (process_json_file _ _ _ _) as [[[[|]|e] fs] m]; exact Hv.
Qed.

Lemma process_files_grows all_files : forall st,
  exists values,
    run_mapping (snd (process_files fields all_files st)) =
    fold_left remember values (run_mapping st).
Proof.
  induction all_files as [|file_path rest IH]; intros st; [now exists []|].
  cbn [process_files].
  destruct (process_file_grows file_path st) as [values Hv].
  destruct (process_file fields file_path st) as [[u|e] st1]; cbn [snd] in Hv.
  - destruct (IH st1) as [values' Hv']. exists (values ++ values').
    now rewrite fold_left_app, <- Hv.
  - now exists values.
Qed.

(** The mapping of a run that starts from the empty one, as [main] does,
    has one entry per key, each key the digest of its original. *)
Lemma run_mapping_digest_keyed all_files fs total out :
  let st := snd (process_files fields all_files (mkRun fs [] total out)) in
  NoDup (dict_keys (run_mapping st)) /\ digest_keyed (run_mapping st).
Proof.
  cbv zeta.
  destruct (process_files_grows all_files (mkRun fs [] total out)) as [values Hv].
  rewrite Hv. cbn [run_mapping]. split.
  - apply remember_all_NoDup. constructor.
  - apply remember_all_digest_keyed. constructor.
Qed.

(** C2: the mapping is filled insert-if-absent.  A sensitive value is
    replaced by the same digest under whatever key and mapping it is
    met; a call of the anonymizer keeps every entry it was given, the
    stored original included; the keys stay pairwise distinct, so
    every hashed value has exactly one entry; a later value with the
    digest of an earlier one, equal or not, leaves the mapping as it
    is; and the same holds over the files of a run, which ends with
    every entry it ever had, one per key. *)
Theorem mapping_first_write_wins (data : JSON) (mapping : Mapping) :
  NoDup (dict_keys mapping) ->
  let mapping' := snd (anonymize_dict data mapping fields) in
  (forall key1 key2 value m1 m2,
      in_fields key1 fields = true -> in_fields key2 fields = true ->
      value <> JNull ->
      fst (anonymize_member fields key1 value m1) =
      fst (anonymize_member fields key2 value m2))
  /\ (forall h w, dict_get h mapping = Some w -> dict_get h mapping' = Some w)
  /\ NoDup (dict_keys mapping')
  /\ (forall value,
        is_dict data = true -> In value (sensitive_values fields data) ->
        count_occ string_dec (dict_keys mapping') (digest value) = 1%nat)
  /\ (forall m earlier later,
        digest later = digest earlier ->
        remember (remember m earlier) later = remember m earlier)
  /\ (forall all_files fs total out,
        let st := snd (process_files fields all_files (mkRun fs mapping total out)) in
        (forall h w, dict_get h mapping = Some w ->
                     dict_get h (run_mapping st) = Some w)
        /\ NoDup (dict_keys (run_mapping st))).
Proof.
  intros Hnd mapping'. subst mapping'. rewrite anonymize_dict_walk. cbn [snd].
  split; [|split; [|split; [|split; [|split]]]].
  - intros key1 key2 value m1 m2 H1 H2 Hv.
    now rewrite !anonymize_member_sensitive.
  - intros h w. apply remember_all_keeps.
  - now apply remember_all_NoDup.
  - intros value Hd Hin. rewrite Hd.
    apply NoDup_count_occ'.
    + now apply remember_all_NoDup.
    + apply dict_mem_keys. now apply remember_all_mem.
  - intros. now apply remember_twice.
  - intros all_files fs total out. cbv zeta.
    destruct (process_files_grows all_files (mkRun fs mapping total out))
      as [values Hv].
    rewrite Hv. cbn [run_mapping]. split.
    + intros h w. apply remember_all_keeps.
    + now apply remember_all_NoDup.
Qed.

End RunMapping.

Lemma mapping_first_write_wins_witness :
  NoDup (dict_keys [(digest (JInt 1), JInt 1)]) /\
  dict_get (digest (JInt 1))
    (snd (anonymize_dict (JObj [("FirstName", JStr "1"); ("LastName", JStr "Smith")])
                         [(digest (JInt 1), JInt 1)] FIELDS_TO_ANONYMIZE)) =
  Some (JInt 1).
Proof.
  assert (Hnd : NoDup (dict_keys [(digest (JInt 1), JInt 1)])) by distinct_keys.
  split; [exact Hnd|].
  apply (proj1 (proj2 (mapping_first_write_wins (J := ascii_json)
                         FIELDS_TO_ANONYMIZE _ _ Hnd))).
  cbn. now rewrite String.eqb_refl.
Defined.

(** ** Files a processor leaves alone *)

Lemma fs_remove_get (p q : string) (fs : FS) :
  dict_get p (fs_remove q fs) = if String.eqb q p then None else dict_get p fs.
Proof.
  unfold fs_remove. induction fs as [|[k v] fs IH]; cbn [filter fst dict_get].
  - now destruct (String.eqb q p).
  - destruct (String.eqb q k) eqn:Eq; cbn [negb dict_get].
    + apply String.eqb_eq in Eq. subst k. rewrite IH.
      rewrite (String.eqb_sym p q). now destruct (String.eqb q p).
    + rewrite IH. destruct (String.eqb p k) eqn:Ep; [|reflexivity].
      apply String.eqb_eq in Ep. subst k. now rewrite Eq.
Qed.

Lemma os_replace_other (src dst p : string) (fs : FS) :
  p <> src -> p <> dst -> dict_get p (os_replace src dst fs) = dict_get p fs.
Proof.
  intros Hs Hd. unfold os_replace. destruct (dict_get src fs); [|reflexivity].
  rewrite dict_get_set_other by congruence. rewrite fs_remove_get.
  destruct (String.eqb src p) eqn:E; [|reflexivity].
  apply String.eqb_eq in E. congruence.
Qed.

Lemma os_replace_source_gone (src dst : string) (fs : FS) :
  src <> dst -> dict_get src fs <> None ->
  dict_get src (os_replace src dst fs) = None.
Proof.
  intros Hne Hsrc. unfold os_replace.
  destruct (dict_get src fs); [|congruence].
  rewrite dict_get_set_other by congruence.
  now rewrite fs_remove_get, String.eqb_refl.
Qed.

Lemma replace_temp_gone (file_path content : string) (fs : FS) :
  dict_get (file_path +++ ".tmp")
    (os_replace (file_path +++ ".tmp") file_path
       (dict_set (file_path +++ ".tmp") content fs)) = None.
Proof.
  apply os_replace_source_gone; [apply temp_file_differs|].
  now rewrite dict_get_set_same.
Qed.

Lemma replace_temp_other (file_path content p : string) (fs : FS) :
  p <> file_path -> p <> file_path +++ ".tmp" ->
  dict_get p
    (os_replace (file_path +++ ".tmp") file_path
       (dict_set (file_path +++ ".tmp") content fs)) = dict_get p fs.
Proof.
  intros H1 H2. rewrite os_replace_other by assumption.
  apply dict_get_set_other. congruence.
Qed.

Lemma process_jsonl_file_other {J : JsonLib} fields file_path mapping fs p :
  p <> file_path -> p <> file_path +++ ".tmp" ->
  dict_get p (snd (fst (process_jsonl_file file_path mapping fields fs))) =
  dict_get p fs.
Proof.
  intros H1 H2. unfold process_jsonl_file.
  destruct (read_text file_path fs) as [text|]; [|reflexivity].
  destruct (jsonl_loop _ _ _ _ _) as [[[count|e] out] m]; cbn [fst snd].
  - now apply replace_temp_other.
  - apply dict_get_set_other. congruence.
Qed.

Section ProcessorFrames.
Context {J : JsonLib}.
Variable fields : list string.

(** X1: [process_json_file] on a document that is a list or a dict
    returns True; the file then holds the indented text of the
    anonymized document, the temporary file is gone (one that was there
    before the call included), every other file is as it was, and the
    mapping has the values of the walk inserted if absent. *)
Theorem process_json_file_rewrites (file_path : string) (mapping : Mapping)
  (fs : FS) (text : string) (data : JSON) :
  read_text file_path fs = Some text -> json_loads text = Some data ->
  is_dict data || is_list data = true ->
  let result := process_json_file file_path mapping fields fs in
  fst (fst result) = Ok true
  /\ dict_get file_path (snd (fst result)) =
     Some (json_dump_indent (value_result fields data))
  /\ dict_get (file_path +++ ".tmp") (snd (fst result)) = None
  /\ (forall p, p <> file_path -> p <> file_path +++ ".tmp" ->
                dict_get p (snd (fst result)) = dict_get p fs)
  /\ snd result = fold_left remember (sensitive_values fields data) mapping.
Proof.
  intros Hread Hparse Hshape result. subst result.
  unfold process_json_file. rewrite Hread, Hparse.
  destruct data; try discriminate.
  - rewrite anonymize_items_walk. cbn [fst snd value_result].
    split; [reflexivity|]. split; [apply os_replace_get|].
    split; [apply replace_temp_gone|]. split; [|reflexivity].
    intros p H1 H2. now apply replace_temp_other.
  - rewrite anonymize_dict_walk. cbn [fst snd value_result is_dict].
    split; [reflexivity|]. split; [apply os_replace_get|].
    split; [apply replace_temp_gone|]. split; [|reflexivity].
    intros p H1 H2. now apply replace_temp_other.
Qed.

(** X2: unless the file holds a document that is a list or a dict,
    [process_json_file] changes nothing and does not return True: a
    file that is missing raises FileNotFoundError, a text that does
    not parse raises JSONDecodeError, a scalar document returns False,
    and in each case the files (with no temporary file created) and the
    mapping are those the call was given. *)
Theorem process_json_file_early_exits (file_path : string) (mapping : Mapping)
  (fs : FS) :
  (forall text data,
      read_text file_path fs = Some text -> json_loads text = Some data ->
      is_dict data || is_list data = false) ->
  let result := process_json_file file_path mapping fields fs in
  snd (fst result) = fs /\ snd result = mapping
  /\ fst (fst result) <> Ok true
  /\ (read_text file_path fs = None -> fst (fst result) = Raise FileNotFoundError)
  /\ (forall text, read_text file_path fs = Some text -> json_loads text = None ->
                   fst (fst result) = Raise JSONDecodeError)
  /\ (forall text data,
        read_text file_path fs = Some text -> json_loads text = Some data ->
        fst (fst result) = Ok false).
Proof.
  intros Hshape. cbv zeta. unfold process_json_file.
  destruct (read_text file_path fs) as [text|].
  - destruct (json_loads text) as [data|] eqn:Hparse.
    + specialize (Hshape text data eq_refl Hparse).
      destruct data; try discriminate Hshape; cbn [fst snd];
        repeat split; try discriminate; intros t [= <-] Hp; congruence.
    + cbn [fst snd]. repeat split; try discriminate.
      intros t d [= <-] Hp. congruence.
  - cbn [fst snd]. repeat split; discriminate.
Qed.

(** X3: [process_jsonl_file] changes two paths at most, the file and
    its temporary file.  When it returns a count the temporary file is
    gone; when it raises, the file itself is as it was; and a file that
    cannot be read changes nothing at all. *)
Theorem process_jsonl_file_frame (file_path : string) (mapping : Mapping) (fs : FS) :
  let result := process_jsonl_file file_path mapping fields fs in
  (forall p, p <> file_path -> p <> file_path +++ ".tmp" ->
             dict_get p (snd (fst result)) = dict_get p fs)
  /\ (forall count, fst (fst result) = Ok count ->
                    dict_get (file_path +++ ".tmp") (snd (fst result)) = None)
  /\ (forall e, fst (fst result) = Raise e ->
                dict_get file_path (snd (fst result)) = dict_get file_path fs)
  /\ (read_text file_path fs = None ->
      result = (Raise FileNotFoundError, fs, mapping)).
Proof.
  cbv zeta. unfold process_jsonl_file.
  destruct (read_text file_path fs) as [text|]; cbn [fst snd].
  - destruct (jsonl_loop _ _ _ _ _) as [[[count|e] out] m]; cbn [fst snd].
    + split; [intros p H1 H2; now apply replace_temp_other|].
      split; [intros; apply replace_temp_gone|].
      split; [discriminate|discriminate].
    + split; [intros p H1 H2; apply dict_get_set_other; congruence|].
      split; [discriminate|]. split; [|discriminate].
      intros _ _. apply dict_get_set_other, temp_file_differs.
  - repeat split; discriminate.
Qed.

End ProcessorFrames.

(** ** The loop over the files *)

Section RunFrames.
Context {J : JsonLib}.
Variable fields : list string.

Lemma process_files_app (files1 files2 : list string) : forall st,
  process_files fields (files1 ++ files2) st =
  match process_files fields files1 st with
  | (Ok _, st1) => process_files fields files2 st1
  | (Raise e, st1) => (Raise e, st1)
  end.
Proof.
  induction files1 as [|f rest IH]; intros st; [reflexivity|].
  cbn [app process_files].
  destruct (process_file fields f st) as [[u|e] st1]; [apply IH|reflexivity].
Qed.

(** X4: the loop stops at the first file whose processing raises: the
    run ends with that exception in the state that file left, whatever
    files follow, so the files after it are not opened. *)
Theorem process_files_stops_at_error (pre post : list string) (file_path : string)
  (st st1 st2 : Run) (e : exn) :
  process_files fields pre st = (Ok tt, st1) ->
  process_file fields file_path st1 = (Raise e, st2) ->
  process_files fields (pre ++ file_path :: post) st = (Raise e, st2).
Proof.
  intros Hpre Hstep. rewrite process_files_app, Hpre.
  cbn [process_files]. now rewrite Hstep.
Qed.

Lemma process_json_file_other file_path mapping fs p :
  p <> file_path -> p <> file_path +++ ".tmp" ->
  dict_get p (snd (fst (process_json_file file_path mapping fields fs))) =
  dict_get p fs.
Proof.
  intros H1 H2. unfold process_json_file.
  destruct (read_text file_path fs) as [text|]; [|reflexivity].
  destruct (json_loads text) as [data|]; [|reflexivity].
  destruct data; try reflexivity.
  - destruct (anonymize_items _ _ _). now apply replace_temp_other.
  - destruct (anonymize_dict _ _ _). now apply replace_temp_other.
Qed.

Lemma process_file_other file_path st p :
  p <> file_path -> p <> file_path +++ ".tmp" ->
  dict_get p (run_fs (snd (process_file fields file_path st))) =
  dict_get p (run_fs st).
Proof.
  intros H1 H2. unfold process_file.
  destruct (String.eqb (path_suffix file_path) ".jsonl").
  - pose proof (process_jsonl_file_other fields file_path (run_mapping st)
                  (run_fs st) p H1 H2) as H.
    destruct (process_jsonl_file _ _ _ _) as [[[count|e] fs] m]; exact H.
  - destruct (String.eqb (path_suffix file_path) ".json"); [|reflexivity].
    destruct (contains "systeminfo" file_path); [reflexivity|].
    pose proof (process_json_file_other file_path (run_mapping st) (run_fs st) p
                  H1 H2) as H.
    destruct (process_json_file _ _ _ _) as [[[[|]|e] fs] m]; exact H.
Qed.

Lemma process_files_other all_files p : forall st,
  ~ In p all_files -> ~ In p (map (fun f => f +++ ".tmp") all_files) ->
  dict_get p (run_fs (snd (process_files fields all_files st))) =
  dict_get p (run_fs st).
Proof.
  induction all_files as [|f rest IH]; intros st H1 H2; [reflexivity|].
  cbn [process_files]. cbn in H1, H2.
  pose proof (process_file_other f st p) as Hstep.
  destruct (process_file fields f st) as [[u|e] st1]; cbn [snd] in Hstep.
  - rewrite IH by tauto. apply Hstep; intros ->; tauto.
  - cbn [snd]. apply Hstep; intros ->; tauto.
Qed.

Lemma process_file_total file_path st :
  path_suffix file_path <> ".jsonl" ->
  total_records (snd (process_file fields file_path st)) = total_records st.
Proof.
  intros Hext. unfold process_file.
  destruct (String.eqb (path_suffix file_path) ".jsonl") eqn:E.
  - apply String.eqb_eq in E. contradiction.
  - destruct (String.eqb (path_suffix file_path) ".json"); [|reflexivity].
    destruct (contains "systeminfo" file_path); [reflexivity|].
    now destruct (process_json_file _ _ _ _) as [[[[|]|e] fs] m].
Qed.

(** X6: the record count comes from JSONL files alone: over files of
    which none has the extension .jsonl the loop leaves
    [total_records] as it was, however many objects their arrays
    hold. *)
Theorem json_files_count_no_records (all_files : list string) : forall st,
  Forall (fun f => path_suffix f <> ".jsonl") all_files ->
  total_records (snd (process_files fields all_files st)) = total_records st.
Proof.
  induction all_files as [|f rest IH]; intros st Hall; [reflexivity|].
  inversion Hall as [|? ? Hf Hrest]; subst. cbn [process_files].
  pose proof (process_file_total f st Hf) as Hstep.
  destruct (process_file fields f st) as [[u|e] st1]; cbn [snd] in Hstep |- *.
  - now rewrite IH.
  - exact Hstep.
Qed.

End RunFrames.

Lemma print_lines_fs (files : list string) : forall st,
  run_fs (fold_left (fun st f => print ("  - " +++ f) st) files st) = run_fs st
  /\ run_mapping (fold_left (fun st f => print ("  - " +++ f) st) files st) =
     run_mapping st
  /\ total_records (fold_left (fun st f => print ("  - " +++ f) st) files st) =
     total_records st.
Proof.
  induction files as [|f rest IH]; intros st; [now repeat split|].
  cbn [fold_left]. destruct (IH (print ("  - " +++ f) st)) as (H1 & H2 & H3).
  now rewrite H1, H2, H3.
Qed.

Lemma main_start_state (fs : FS) :
  run_fs (main_start fs) = fs /\ run_mapping (main_start fs) = []
  /\ total_records (main_start fs) = 0%nat.
Proof.
  unfold main_start. destruct (print_lines_fs (discovered fs)
    (print ("Found " +++ str_nat (List.length (discovered fs))
            +++ " file(s) to process:") (mkRun fs [] 0 []))) as (H1 & H2 & H3).
  now rewrite H1, H2, H3.
Qed.

Section MainRun.
Context {J : JsonLib}.

(** [main], by the outcome of its loop. *)
Lemma main_unfold (fs : FS) :
  main fs =
  match discovered fs with
  | [] =>
      (Ok tt,
       print "Looking for: data_*.jsonl, failed_treatments_*.json, failed_patients_*.json"
         (print "No generated files found to anonymize." (mkRun fs [] 0 [])))
  | _ :: _ =>
      match process_files FIELDS_TO_ANONYMIZE (discovered fs) (main_start fs) with
      | (Raise e, st) => (Raise e, st)
      | (Ok _, st) =>
          match run_mapping st with
          | _ :: _ =>
              match save_mapping (run_mapping st) "anonymization_mapping.json"
                      (run_fs st) with
              | (Raise e, fs') =>
                  (Raise e, mkRun fs' (run_mapping st) (total_records st) (stdout st))
              | (Ok _, fs') =>
                  (Ok tt,
                   print "  Mapping saved to: anonymization_mapping.json"
                     (print ("  Total records processed: "
                             +++ str_nat (total_records st))
                        (print ("  Total unique values hashed: "
                                +++ str_nat (List.length (run_mapping st)))
                           (print (str1 LF +++ "Anonymization complete!")
                              (mkRun fs' (run_mapping st) (total_records st)
                                     (stdout st))))))
              end
          | [] =>
              (Ok tt,
               print (str1 LF +++ "No fields were anonymized (no matching fields found in files).")
                     st)
          end
      end
  end.
Proof.
  unfold main, main_start, discovered.
  destruct (glob "data_" ".jsonl" fs ++ glob "failed_treatments_" ".json" fs
            ++ glob "failed_patients_" ".json" fs); reflexivity.
Qed.

(** X8: with no file matching the three patterns [main] ends normally
    after two printed lines: no file is read or written, the mapping
    file included, and nothing is recorded or counted. *)
Theorem main_without_files (fs : FS) :
  discovered fs = [] ->
  fst (main fs) = Ok tt
  /\ run_fs (snd (main fs)) = fs
  /\ run_mapping (snd (main fs)) = []
  /\ total_records (snd (main fs)) = 0%nat
  /\ stdout (snd (main fs)) =
     ["No generated files found to anonymize.";
      "Looking for: data_*.jsonl, failed_treatments_*.json, failed_patients_*.json"].
Proof.
  intros Hnone. rewrite main_unfold, Hnone. now repeat split.
Qed.

(** X5: a run changes only the discovered files, their temporary
    files and the mapping file: every other path of the directory
    holds after [main] what it held before, whether the run ends
    normally or with an exception. *)
Theorem main_leaves_other_files (fs : FS) (p : string) :
  ~ In p (discovered fs) ->
  ~ In p (map (fun f => f +++ ".tmp") (discovered fs)) ->
  p <> "anonymization_mapping.json" ->
  dict_get p (run_fs (snd (main fs))) = dict_get p fs.
Proof.
  intros H1 H2 H3. rewrite main_unfold.
  destruct (discovered fs) as [|f rest] eqn:Hd; [reflexivity|].
  rewrite <- Hd in *.
  pose proof (process_files_other FIELDS_TO_ANONYMIZE (discovered fs) p
                (main_start fs) H1 H2) as Hloop.
  rewrite (proj1 (main_start_state fs)) in Hloop.
  destruct (process_files _ _ _) as [[u|e] st]; cbn [snd] in Hloop |- *;
    [|exact Hloop].
  destruct (run_mapping st) as [|entry more]; [exact Hloop|].
  unfold save_mapping. destruct (build_mapping_data _); cbn [snd run_fs print];
    [|exact Hloop].
  rewrite dict_get_set_other by congruence. exact Hloop.
Qed.

End MainRun.

(** ** Invariants of the mapping *)

Section MappingInvariant.
Context {J : JsonLib}.
Variable fields : list string.
Variable P : Mapping -> Prop.
Hypothesis P_remember : forall m v, v <> JNull -> P m -> P (remember m v).

Lemma invariant_remember_all values : forall m,
  Forall (fun v => v <> JNull) values -> P m -> P (fold_left remember values m).
Proof.
  induction values as [|v vs IH]; cbn; intros m Hall Hm; [assumption|].
  inversion Hall; subst. apply IH; [assumption|]. now apply P_remember.
Qed.

Lemma sensitive_values_all_not_null v :
  Forall (fun x => x <> JNull) (sensitive_values fields v).
Proof.
  apply Forall_forall. intros x Hin ->.
  exact (sensitive_values_not_null fields v Hin).
Qed.

Lemma invariant_anonymize_dict data m :
  P m -> P (snd (anonymize_dict data m fields)).
Proof.
  intros Hm. rewrite anonymize_dict_walk. cbn [snd].
  apply invariant_remember_all; [|assumption].
  destruct (is_dict data); [apply sensitive_values_all_not_null|constructor].
Qed.

Lemma invariant_anonymize_items items m :
  P m -> P (snd (anonymize_items items m fields)).
Proof.
  intros Hm. rewrite anonymize_items_walk. cbn [snd].
  apply invariant_remember_all; [|assumption].
  rewrite <- sensitive_values_arr. apply sensitive_values_all_not_null.
Qed.

Lemma invariant_jsonl_loop lines : forall count out m,
  P m -> P (snd (jsonl_loop lines count out m fields)).
Proof.
  induction lines as [|line rest IH]; intros count out m Hm; [assumption|].
  cbn [jsonl_loop]. destruct (strip_nonempty line); [|now apply IH].
  destruct (json_loads line) as [data|]; [|assumption].
  pose proof (invariant_anonymize_dict data m Hm) as Hd.
  destruct (anonymize_dict data m fields). now apply IH.
Qed.

Lemma invariant_process_file file_path st :
  P (run_mapping st) -> P (run_mapping (snd (process_file fields file_path st))).
Proof.
  intros Hm. unfold process_file.
  destruct (String.eqb (path_suffix file_path) ".jsonl").
  - unfold process_jsonl_file.
    destruct (read_text file_path (run_fs st)) as [text|]; [|assumption].
    pose proof (invariant_jsonl_loop (readlines text) 0 "" _ Hm) as Hl.
    destruct (jsonl_loop _ _ _ _ _) as [[[count|e] out] m]; exact Hl.
  - destruct (String.eqb (path_suffix file_path) ".json"); [|assumption].
    destruct (contains "systeminfo" file_path); [assumption|].
    unfold process_json_file.
    destruct (read_text file_path (run_fs st)) as [text|]; [|assumption].
    destruct (json_loads text) as [data|]; [|assumption].
    destruct data; try assumption.
    + pose proof (invariant_anonymize_items items _ Hm) as Hi.
      now destruct (anonymize_items _ _ _).
    + pose proof (invariant_anonymize_dict (JObj members) _ Hm) as Hd.
      now destruct (anonymize_dict _ _ _).
Qed.

Lemma invariant_process_files all_files : forall st,
  P (run_mapping st) -> P (run_mapping (snd (process_files fields all_files st))).
Proof.
  induction all_files as [|f rest IH]; intros st Hm; [assumption|].
  cbn [process_files].
  pose proof (invariant_process_file f st Hm) as Hstep.
  destruct (process_file fields f st) as [[u|e] st1]; [now apply IH|exact Hstep].
Qed.

End MappingInvariant.

Section MainMapping.
Context {J : JsonLib}.

Lemma main_mapping (fs : FS) :
  run_mapping (snd (main fs)) = [] \/
  run_mapping (snd (main fs)) =
  run_mapping (snd (process_files FIELDS_TO_ANONYMIZE (discovered fs) (main_start fs))).
Proof.
  rewrite main_unfold. destruct (discovered fs) as [|f rest] eqn:Hd; [now left|].
  right. rewrite <- Hd.
  destruct (process_files _ _ _) as [[u|e] st]; [|reflexivity].
  cbn [snd]. destruct (run_mapping st) eqn:Hm.
  - cbn [snd print run_mapping]. now rewrite Hm.
  - now destruct (save_mapping _ _ _) as [[u'|e'] fs'].
Qed.

Lemma main_invariant (P : Mapping -> Prop) (fs : FS) :
  (forall m v, v <> JNull -> P m -> P (remember m v)) -> P [] ->
  P (run_mapping (snd (main fs))).
Proof.
  intros Hstep Hnil. destruct (main_mapping fs) as [-> | ->]; [assumption|].
  apply invariant_process_files; [assumption|].
  now rewrite (proj1 (proj2 (main_start_state fs))).
Qed.

(** X9: in the mapping a run ends with, whatever the files hold and
    however the run ends, every entry can be checked again: the stored
    original is not null and [hash_value] of it is the key it is stored
    under; and no key occurs twice. *)
Theorem main_mapping_rehashes (fs : FS) :
  NoDup (dict_keys (run_mapping (snd (main fs))))
  /\ forall h w,
       dict_get h (run_mapping (snd (main fs))) = Some w ->
       w <> JNull /\ hash_value w = Some h.
Proof.
  pose (P := fun m : Mapping =>
               NoDup (dict_keys m) /\
               Forall (fun e => snd e <> JNull /\ fst e = digest (snd e)) m).
  assert (HP : P (run_mapping (snd (main fs)))).
  { apply main_invariant.
    - intros m v Hv [Hnd Hall]. split; [now apply remember_NoDup|].
      unfold remember. destruct (dict_mem (digest v) m) eqn:E; cbn [negb];
        [assumption|].
      rewrite dict_set_absent by (rewrite <- dict_mem_keys; congruence).
      apply Forall_app. split; [assumption|]. now repeat constructor.
    - split; constructor. }
  destruct HP as [Hnd Hall]. split; [assumption|].
  intros h w Hget. apply dict_get_In in Hget.
  rewrite Forall_forall in Hall. destruct (Hall _ Hget) as [Hw Hh].
  cbn [fst snd] in *. split; [assumption|].
  rewrite hash_value_not_None by now apply is_None_false. now subst.
Qed.

End MainMapping.

(** ** The reverse mapping *)

Lemma key_eqb_spec a b :
  key_eqb a b = true <->
  hashable a = true /\ hashable b = true /\ key_norm a = key_norm b.
Proof.
  destruct a as [|x|n|s| |], b as [|y|m|t| |]; cbn;
    try (split; [discriminate | intros (_ & _ & H); discriminate]);
    try (split; [discriminate | intros (H & _); discriminate]);
    try (split; [discriminate | intros (_ & H & _); discriminate]).
  - tauto.
  - destruct x, y; cbn; split; try tauto; try discriminate;
      intros (_ & _ & H); discriminate.
  - rewrite Z.eqb_eq. split; [intros <-; tauto | intros (_ & _ & [= H]); exact H].
  - rewrite Z.eqb_eq. split; [intros ->; tauto | intros (_ & _ & [= H]); exact H].
  - rewrite Z.eqb_eq. split; [intros ->; tauto | intros (_ & _ & [= H]); exact H].
  - rewrite String.eqb_eq. split; [intros ->; tauto | intros (_ & _ & [= H]); exact H].
Qed.

Lemma key_eqb_refl a : hashable a = true -> key_eqb a a = true.
Proof. intros H. apply key_eqb_spec. tauto. Qed.

Lemma key_eqb_trans_l a b c :
  key_eqb a b = true -> key_eqb a c = key_eqb b c.
Proof.
  intros Hab. apply key_eqb_spec in Hab. destruct Hab as (Ha & Hb & Hn).
  destruct (key_eqb b c) eqn:Hbc.
  - apply key_eqb_spec in Hbc. apply key_eqb_spec. intuition congruence.
  - destruct (key_eqb a c) eqn:Hac; [|reflexivity].
    apply key_eqb_spec in Hac.
    assert (key_eqb b c = true) by (apply key_eqb_spec; intuition congruence).
    congruence.
Qed.

Lemma key_eqb_trans_r a b c :
  key_eqb b c = true -> key_eqb a b = key_eqb a c.
Proof.
  intros Hbc. apply key_eqb_spec in Hbc. destruct Hbc as (Hb & Hc & Hn).
  destruct (key_eqb a c) eqn:Hac.
  - apply key_eqb_spec in Hac. apply key_eqb_spec. intuition congruence.
  - destruct (key_eqb a b) eqn:Hab; [|reflexivity].
    apply key_eqb_spec in Hab.
    assert (key_eqb a c = true) by (apply key_eqb_spec; intuition congruence).
    congruence.
Qed.

(** Lookup after [d[k'] = v]. *)
Lemma pydict_get_set {V : Type} (k k' : JSON) (v : V) (d : list (JSON * V)) :
  pydict_get k (pydict_set k' v d) =
  if key_eqb k k' then Some v else pydict_get k d.
Proof.
  induction d as [|[k0 v0] d IH]; cbn [pydict_set pydict_get].
  - reflexivity.
  - destruct (key_eqb k' k0) eqn:E0; cbn [pydict_get].
    + rewrite (key_eqb_trans_r k k' k0 E0). now destruct (key_eqb k k0).
    + rewrite IH. destruct (key_eqb k k0) eqn:Ek; [|reflexivity].
      destruct (key_eqb k k') eqn:Ek'; [|reflexivity].
      rewrite <- (key_eqb_trans_l k k' k0 Ek') in E0. congruence.
Qed.

Lemma pydict_set_length {V : Type} (k : JSON) (v : V) (d : list (JSON * V)) :
  (List.length (pydict_set k v d) <= S (List.length d))%nat.
Proof.
  induction d as [|[k0 v0] d IH]; cbn [pydict_set List.length]; [lia|].
  destruct (key_eqb k k0); cbn [List.length]; lia.
Qed.

Lemma reverse_comprehension_hashable items : forall acc,
  originals_hashable items = true ->
  reverse_comprehension items acc = Ok (fold_left reverse_step items acc).
Proof.
  induction items as [|[h v] rest IH]; intros acc Hall; [reflexivity|].
  cbn in Hall. apply andb_true_iff in Hall. destruct Hall as [Hv Hrest].
  cbn [reverse_comprehension fold_left]. rewrite Hv. now apply IH.
Qed.

Lemma reverse_comprehension_unhashable items : forall acc,
  originals_hashable items = false ->
  reverse_comprehension items acc = Raise TypeError.
Proof.
  induction items as [|[h v] rest IH]; intros acc Hall; [discriminate|].
  cbn in Hall. cbn [reverse_comprehension].
  destruct (hashable v); [|reflexivity]. now apply IH.
Qed.

Lemma reverse_fold_length items : forall acc,
  (List.length (fold_left reverse_step items acc)
   <= List.length acc + List.length items)%nat.
Proof.
  induction items as [|e rest IH]; intros acc; cbn [fold_left List.length]; [lia|].
  specialize (IH (reverse_step acc e)).
  pose proof (pydict_set_length (snd e) (fst e) acc). unfold reverse_step in *. lia.
Qed.

Lemma reverse_fold_absent k items : forall acc,
  Forall (fun e => key_eqb k (snd e) = false) items ->
  pydict_get k (fold_left reverse_step items acc) = pydict_get k acc.
Proof.
  induction items as [|e rest IH]; intros acc Hall; [reflexivity|].
  inversion Hall as [|? ? He Hrest]; subst. cbn [fold_left].
  rewrite IH by assumption. unfold reverse_step. now rewrite pydict_get_set, He.
Qed.

Section SaveMappingErrors.
Context {J : JsonLib}.

Lemma save_mapping_unhashable (mapping : Mapping) (output_file : string) (fs : FS) :
  originals_hashable mapping = false ->
  save_mapping mapping output_file fs = (Raise TypeError, fs).
Proof.
  intros H. unfold save_mapping, build_mapping_data.
  now rewrite reverse_comprehension_unhashable.
Qed.

Lemma save_mapping_hashable (mapping : Mapping) (output_file : string) (fs : FS) :
  originals_hashable mapping = true ->
  fst (save_mapping mapping output_file fs) = Ok tt.
Proof.
  intros H. unfold save_mapping, build_mapping_data.
  now rewrite reverse_comprehension_hashable.
Qed.

(** X7: [save_mapping] raises TypeError exactly when an original stored
    in the mapping is a list or a dict, and then it writes nothing.
    Otherwise it writes the document: [hash_to_original] is the
    mapping, [total_mappings] its length, and [original_to_hash] has at
    most that many entries. *)
Theorem save_mapping_type_error (mapping : Mapping) (output_file : string) (fs : FS) :
  if originals_hashable mapping
  then exists md,
         build_mapping_data mapping = Ok md
         /\ save_mapping mapping output_file fs =
            (Ok tt, dict_set output_file (json_dump_indent (mapping_document md)) fs)
         /\ hash_to_original md = mapping
         /\ total_mappings md = List.length mapping
         /\ (List.length (original_to_hash md) <= List.length mapping)%nat
  else save_mapping mapping output_file fs = (Raise TypeError, fs).
Proof.
  unfold save_mapping, build_mapping_data.
  destruct (originals_hashable mapping) eqn:E.
  - rewrite reverse_comprehension_hashable by assumption.
    eexists. repeat split. cbn [original_to_hash].
    exact (reverse_fold_length mapping []).
  - now rewrite reverse_comprehension_unhashable.
Qed.

End SaveMappingErrors.

(** X10: the reverse mapping is last-write-wins up to key equality: a
    key equal (as a dict key: True is 1, False is 0) to the original of
    an entry, and to no original after it, is sent to the digest of
    that entry; a key equal to no original is absent. *)
Theorem reverse_mapping_last_wins (pre post : Mapping) (h : string) (v k : JSON) :
  originals_hashable (pre ++ (h, v) :: post) = true ->
  exists md,
    build_mapping_data (pre ++ (h, v) :: post) = Ok md
    /\ (key_eqb k v = true ->
        Forall (fun e => key_eqb k (snd e) = false) post ->
        pydict_get k (original_to_hash md) = Some h)
    /\ (Forall (fun e => key_eqb k (snd e) = false) (pre ++ (h, v) :: post) ->
        pydict_get k (original_to_hash md) = None).
Proof.
  intros Hall. unfold build_mapping_data.
  rewrite reverse_comprehension_hashable by assumption.
  eexists. split; [reflexivity|]. cbn [original_to_hash]. split.
  - intros Hk Hpost. rewrite fold_left_app. cbn [fold_left].
    rewrite reverse_fold_absent by assumption.
    unfold reverse_step at 1. cbn [fst snd]. now rewrite pydict_get_set, Hk.
  - intros Hnone. now rewrite reverse_fold_absent.
Qed.

Lemma reverse_mapping_last_wins_witness :
  let mapping := snd (anonymize_dict (JObj bool_int_example) [] FIELDS_TO_ANONYMIZE) in
  mapping = [(digest (JInt 1), JInt 1)] ++ (digest (JBool true), JBool true) :: [] /\
  originals_hashable mapping = true /\
  key_eqb (JInt 1) (JBool true) = true /\
  exists md,
    build_mapping_data mapping = Ok md /\
    pydict_get (JInt 1) (original_to_hash md) = Some (digest (JBool true)).
Proof.
  cbv zeta.
  assert (Hm : snd (anonymize_dict (JObj bool_int_example) [] FIELDS_TO_ANONYMIZE) =
               [(digest (JInt 1), JInt 1)] ++ (digest (JBool true), JBool true) :: [])
    by (vm_compute; reflexivity).
  split; [exact Hm|]. rewrite Hm. split; [reflexivity|]. split; [reflexivity|].
  destruct (reverse_mapping_last_wins [(digest (JInt 1), JInt 1)] []
              (digest (JBool true)) (JBool true) (JInt 1) eq_refl)
    as (md & Hmd & Hlast & _).
  exists md. split; [exact Hmd|]. apply Hlast; [reflexivity|constructor].
Defined.

(** ** The mapping file *)

Lemma prefix_append (p f x : string) :
  String.prefix p f = true -> String.prefix p (f +++ x) = true.
Proof.
  revert f. induction p as [|c p IH]; intros f.
  - intros _. now destruct (f +++ x).
  - destruct f as [|c' f]; cbn; [discriminate|].
    destruct (ascii_dec c c'); [apply IH|discriminate].
Qed.

Lemma glob_prefix (prefix suffix : string) (fs : FS) (f : string) :
  In f (glob prefix suffix fs) -> String.prefix prefix f = true.
Proof.
  unfold glob. intros H. apply filter_In in H. destruct H as [_ H].
  unfold fnmatch_star in H. apply andb_true_iff in H. destruct H as [H _].
  apply andb_true_iff in H. tauto.
Qed.

Lemma discovered_prefix (fs : FS) (f : string) :
  In f (discovered fs) ->
  String.prefix "data_" f = true \/ String.prefix "failed_treatments_" f = true
  \/ String.prefix "failed_patients_" f = true.
Proof.
  unfold discovered. rewrite !in_app_iff.
  intros [H|[H|H]]; apply glob_prefix in H; tauto.
Qed.

Lemma mapping_file_not_discovered (fs : FS) :
  ~ In "anonymization_mapping.json" (discovered fs)
  /\ ~ In "anonymization_mapping.json" (map (fun f => f +++ ".tmp") (discovered fs)).
Proof.
  split.
  - intros H. apply discovered_prefix in H.
    destruct H as [H|[H|H]]; discriminate H.
  - intros H. apply in_map_iff in H. destruct H as (f & Hf & H).
    apply discovered_prefix in H.
    destruct H as [H|[H|H]]; apply (prefix_append _ _ ".tmp") in H;
      rewrite Hf in H; discriminate H.
Qed.

Section MappingFile.
Context {J : JsonLib}.

Lemma process_file_no_type_error fields file_path st :
  fst (process_file fields file_path st) <> Raise TypeError.
Proof.
  unfold process_file.
  destruct (String.eqb (path_suffix file_path) ".jsonl").
  - unfold process_jsonl_file.
    destruct (read_text file_path (run_fs st)) as [text|]; [|discriminate].
    assert (H : forall lines count out m,
               fst (fst (jsonl_loop lines count out m fields)) <> Raise TypeError).
    { induction lines as [|line rest IH]; intros count out m; [discriminate|].
      cbn [jsonl_loop]. destruct (strip_nonempty line); [|apply IH].
      destruct (json_loads line); [|discriminate].
      destruct (anonymize_dict _ _ _). apply IH. }
    specialize (H (readlines text) 0%nat "" (run_mapping st)).
    destruct (jsonl_loop _ _ _ _ _) as [[[count|e] out] m]; [discriminate|].
    cbn [fst] in *. congruence.
  - destruct (String.eqb (path_suffix file_path) ".json"); [|discriminate].
    destruct (contains "systeminfo" file_path); [discriminate|].
    unfold process_json_file.
    destruct (read_text file_path (run_fs st)) as [text|]; [|discriminate].
    destruct (json_loads text) as [data|]; [|discriminate].
    destruct data; try discriminate.
    + destruct (anonymize_items _ _ _). discriminate.
    + destruct (anonymize_dict _ _ _). discriminate.
Qed.

Lemma process_files_no_type_error fields all_files : forall st,
  fst (process_files fields all_files st) <> Raise TypeError.
Proof.
  induction all_files as [|f rest IH]; intros st; [discriminate|].
  cbn [process_files].
  pose proof (process_file_no_type_error fields f st) as H.
  destruct (process_file fields f st) as [[u|e] st1]; [apply IH|exact H].
Qed.

(** X11: the mapping file is written only by a run that ends normally
    with a mapping that is not empty; it then holds the indented text of
    the mapping document.  After any other run (an exception, in a file
    or in [save_mapping]; nothing to record; no file found) the path
    holds what it held before. *)
Theorem mapping_file_written (fs : FS) :
  let st := snd (main fs) in
  (fst (main fs) = Ok tt -> run_mapping st <> [] ->
   exists md,
     build_mapping_data (run_mapping st) = Ok md /\
     dict_get "anonymization_mapping.json" (run_fs st) =
       Some (json_dump_indent (mapping_document md)))
  /\ (fst (main fs) <> Ok tt \/ run_mapping st = [] ->
      dict_get "anonymization_mapping.json" (run_fs st) =
      dict_get "anonymization_mapping.json" fs).
Proof.
  cbv zeta. rewrite main_unfold.
  destruct (discovered fs) as [|f rest] eqn:Hd.
  - cbn [fst snd print run_mapping run_fs]. split; [congruence|reflexivity].
  - rewrite <- Hd.
    destruct (mapping_file_not_discovered fs) as [H1 H2].
    pose proof (process_files_other FIELDS_TO_ANONYMIZE (discovered fs)
                  "anonymization_mapping.json" (main_start fs) H1 H2) as Hloop.
    rewrite (proj1 (main_start_state fs)) in Hloop.
    destruct (process_files _ _ _) as [[u|e] st]; cbn [fst snd] in Hloop |- *.
    + destruct (run_mapping st) as [|entry more] eqn:Hm.
      * cbn [fst snd print run_mapping run_fs]. rewrite Hm.
        split; [congruence|intros _; exact Hloop].
      * unfold save_mapping.
        destruct (build_mapping_data (entry :: more)) as [md|e] eqn:Hb;
          cbn [fst snd print run_mapping run_fs].
        -- split.
           ++ intros _ _. exists md. split; [exact Hb|apply dict_get_set_same].
           ++ intros [H|H]; congruence.
        -- split; [discriminate|intros _; exact Hloop].
    + split; [discriminate|intros _; exact Hloop].
Qed.

(** X12: [main] ends with TypeError exactly when the loop over the
    files ended normally and the mapping it built holds an original
    that is a list or a dict (a sensitive key whose value is a
    container): every file has then been rewritten, the mapping is
    never saved, and the run ends in the state the loop left. *)
Theorem main_type_error (fs : FS) :
  (forall st,
      process_files FIELDS_TO_ANONYMIZE (discovered fs) (main_start fs) = (Ok tt, st) ->
      originals_hashable (run_mapping st) = false ->
      main fs = (Raise TypeError, st))
  /\ (fst (main fs) = Raise TypeError ->
      exists st,
        process_files FIELDS_TO_ANONYMIZE (discovered fs) (main_start fs) = (Ok tt, st)
        /\ originals_hashable (run_mapping st) = false
        /\ snd (main fs) = st).
Proof.
  split.
  - intros st Hloop Hbad. rewrite main_unfold.
    destruct (discovered fs) as [|f rest] eqn:Hd.
    + cbn in Hloop. injection Hloop as <-.
      rewrite (proj1 (proj2 (main_start_state fs))) in Hbad. discriminate.
    + rewrite <- Hd in Hloop |- *. rewrite Hloop.
      destruct (run_mapping st) as [|entry more] eqn:Hm; [discriminate|].
      rewrite (save_mapping_unhashable (entry :: more)
                 "anonymization_mapping.json" (run_fs st) Hbad).
      rewrite <- Hm. now destruct st.
  - rewrite main_unfold.
    destruct (discovered fs) as [|f rest] eqn:Hd; [discriminate|].
    rewrite <- Hd.
    pose proof (process_files_no_type_error FIELDS_TO_ANONYMIZE (discovered fs)
                  (main_start fs)) as Hno.
    destruct (process_files _ _ _) as [[[]|e] st]; cbn [fst snd] in Hno |- *;
      [|congruence].
    destruct (run_mapping st) as [|entry more] eqn:Hm; [discriminate|].
    destruct (originals_hashable (entry :: more)) eqn:Hh.
    + pose proof (save_mapping_hashable (entry :: more)
                    "anonymization_mapping.json" (run_fs st) Hh) as Hsave.
      destruct (save_mapping _ _ _) as [[[]|e'] fs']; cbn [fst] in Hsave |- *;
        [discriminate|discriminate].
    + rewrite (save_mapping_unhashable (entry :: more)
                 "anonymization_mapping.json" (run_fs st) Hh).
      cbn [fst snd]. intros _. exists st.
      split; [reflexivity|]. split; [now rewrite Hm|].
      rewrite <- Hm. now destruct st.
Qed.

End MappingFile.

Lemma main_type_error_witness :
  let fs := [("failed_patients_1.json",
              json_text false true 0 (JObj container_example))] in
  fst (main (J := ascii_json) fs) = Raise TypeError /\
  exists st,
    process_files (J := ascii_json) FIELDS_TO_ANONYMIZE (discovered fs)
      (main_start fs) = (Ok tt, st)
    /\ originals_hashable (run_mapping st) = false
    /\ snd (main (J := ascii_json) fs) = st.
Proof.
  cbv zeta.
  assert (H : fst (main (J := ascii_json)
                     [("failed_patients_1.json",
                       json_text false true 0 (JObj container_example))]) =
              Raise TypeError) by (vm_compute; reflexivity).
  split; [exact H|].
  exact (proj2 (main_type_error (J := ascii_json) _) H).
Defined.

(** ** What the walk does not reach *)

Lemma anonymize_items_no_dict fields items : forall mapping,
  Forall (fun item => is_dict item = false) items ->
  anonymize_items items mapping fields = (items, mapping).
Proof.
  induction items as [|item rest IH]; intros mapping Hall; [reflexivity|].
  inversion Hall as [|? ? Hitem Hrest]; subst.
  cbn [anonymize_items]. now rewrite Hitem, IH.
Qed.

(** X13: under a key that is not sensitive, a list none of whose
    elements is a dict is returned as it is and nothing is recorded,
    whatever its elements hold: the walk looks one level into a list,
    so a record inside a list inside a list keeps its sensitive
    values. *)
Theorem lists_of_lists_not_walked (fields : list string)
  (members : list (string * JSON)) (mapping : Mapping) (key : string)
  (items : list JSON) :
  NoDup (dict_keys members) -> In (key, JArr items) members ->
  in_fields key fields = false ->
  Forall (fun item => is_dict item = false) items ->
  anonymize_member fields key (JArr items) mapping = (JArr items, mapping)
  /\ exists out,
       fst (anonymize_dict (JObj members) mapping fields) = JObj out /\
       dict_get key out = Some (JArr items).
Proof.
  intros Hnd Hin Hk Hall.
  assert (Hstep : anonymize_member fields key (JArr items) mapping =
                  (JArr items, mapping)).
  { unfold anonymize_member, anonymize_value. rewrite Hk. cbn [andb].
    now rewrite anonymize_items_no_dict. }
  split; [exact Hstep|].
  destruct (anonymize_dict_lookup fields members mapping key _ Hnd Hin)
    as (out & Hout & _ & Hget).
  exists out. split; [assumption|]. rewrite Hget. f_equal.
  pose proof (anonymize_member_walk fields key (JArr items) mapping) as Hw.
  rewrite Hstep in Hw. now injection Hw as <- _.
Qed.

Lemma lists_of_lists_not_walked_witness :
  NoDup (dict_keys list_in_list_example) /\
  In ("Visits", JArr [JArr [alice]]) list_in_list_example /\
  in_fields "Visits" FIELDS_TO_ANONYMIZE = false /\
  Forall (fun item => is_dict item = false) [JArr [alice]] /\
  anonymize_member FIELDS_TO_ANONYMIZE "Visits" (JArr [JArr [alice]]) [] =
  (JArr [JArr [JObj [("FirstName", JStr "Alice")]]], []).
Proof.
  assert (Hnd : NoDup (dict_keys list_in_list_example)) by distinct_keys.
  assert (Hin : In ("Visits", JArr [JArr [alice]]) list_in_list_example)
    by (cbn; tauto).
  assert (Hall : Forall (fun item => is_dict item = false) [JArr [alice]])
    by (repeat constructor).
  split; [exact Hnd|]. split; [exact Hin|]. split; [reflexivity|].
  split; [exact Hall|].
  exact (proj1 (lists_of_lists_not_walked FIELDS_TO_ANONYMIZE list_in_list_example
                  [] "Visits" [JArr [alice]] Hnd Hin eq_refl Hall)).
Defined.

Section JsonlNonObjects.
Context {J : JsonLib}.
Variable fields : list string.

Lemma no_dict_no_values (docs : list JSON) :
  Forall (fun d => is_dict d = false) docs ->
  flat_map (document_values fields) docs = []
  /\ rendered fields docs = join_lines (map (fun d => json_dumps d +++ str1 LF) docs).
Proof.
  induction 1 as [|d rest Hd _ [IH1 IH2]]; [now split|].
  unfold rendered in *. cbn [flat_map map join_lines].
  unfold document_values at 1. rewrite Hd, IH1, IH2.
  split; [reflexivity|]. now destruct d.
Qed.

(** X14: in a JSONL file a line whose document is not an object, a
    list of records included, is counted and written back as parsed:
    [anonymize_dict] returns what is not a dict unchanged, so a file
    of such lines is re-serialised with the mapping untouched.  (In a
    .json file the same list has its records anonymized.) *)
Theorem jsonl_non_objects_pass (file_path : string) (mapping : Mapping) (fs : FS)
  (text : string) (docs : list JSON) :
  read_text file_path fs = Some text ->
  map json_loads (filter strip_nonempty (readlines text)) = map Some docs ->
  Forall (fun d => is_dict d = false) docs ->
  let result := process_jsonl_file file_path mapping fields fs in
  fst (fst result) = Ok (List.length docs)
  /\ dict_get file_path (snd (fst result)) =
     Some (join_lines (map (fun d => json_dumps d +++ str1 LF) docs))
  /\ snd result = mapping.
Proof.
  intros Hread Hdocs Hall result. subst result.
  unfold process_jsonl_file. rewrite Hread.
  rewrite (jsonl_loop_parsed fields _ docs) by assumption.
  destruct (no_dict_no_values docs Hall) as [Hv Hr]. rewrite Hv, Hr.
  cbn [fst snd fold_left]. split; [reflexivity|]. split; [|reflexivity].
  apply os_replace_get.
Qed.

End JsonlNonObjects.

Lemma jsonl_non_objects_pass_witness :
  let fs := [("data_1.jsonl", jsonl_line (JArr [alice]))] in
  let J := json_knowing [JArr [alice]] in
  let result := process_jsonl_file (J := J) "data_1.jsonl" [] FIELDS_TO_ANONYMIZE fs in
  read_text "data_1.jsonl" fs = Some (jsonl_line (JArr [alice])) /\
  map (json_loads (JsonLib := J))
      (filter strip_nonempty (readlines (jsonl_line (JArr [alice])))) =
    map Some [JArr [alice]] /\
  Forall (fun d => is_dict d = false) [JArr [alice]] /\
  fst (fst result) = Ok 1%nat /\
  dict_get "data_1.jsonl" (snd (fst result)) = Some (jsonl_line (JArr [alice])) /\
  snd result = [].
Proof.
  cbv zeta.
  assert (Hread : read_text "data_1.jsonl" [("data_1.jsonl", jsonl_line (JArr [alice]))] =
                  Some (jsonl_line (JArr [alice]))) by (vm_compute; reflexivity).
  assert (Hdocs : map (json_loads (JsonLib := json_knowing [JArr [alice]]))
                    (filter strip_nonempty (readlines (jsonl_line (JArr [alice])))) =
                  map Some [JArr [alice]]) by (vm_compute; reflexivity).
  assert (Hall : Forall (fun d => is_dict d = false) [JArr [alice]])
    by (repeat constructor).
  split; [exact Hread|]. split; [exact Hdocs|]. split; [exact Hall|].
  destruct (jsonl_non_objects_pass (J := json_knowing [JArr [alice]])
              FIELDS_TO_ANONYMIZE "data_1.jsonl" [] _ _ _ Hread Hdocs Hall)
    as (H1 & H2 & H3).
  rewrite H1, H2, H3. split; [reflexivity|]. split; [|reflexivity].
  vm_compute. reflexivity.
Defined.

(** ** Well-formed documents through a pass *)

Lemma distinctb_NoDup (keys : list string) : distinctb keys = true -> NoDup keys.
Proof.
  induction keys as [|k rest IH]; cbn; [constructor|].
  intros H. apply andb_true_iff in H. destruct H as [Hk Hrest].
  constructor; [|now apply IH].
  intros Hin. apply negb_true_iff in Hk.
  assert (existsb (String.eqb k) rest = true); [|congruence].
  apply existsb_exists. exists k. split; [assumption|apply String.eqb_refl].
Qed.

Lemma flat_map_nil {A B : Type} (f : A -> list B) (l : list A) :
  flat_map f l = [] -> Forall (fun x => f x = []) l.
Proof.
  induction l as [|x l IH]; cbn; [constructor|].
  intros H. apply app_eq_nil in H. destruct H. constructor; auto.
Qed.

Lemma flat_map_map_ext {A B C : Type} (f : B -> list C) (g : A -> B)
  (h : C -> C) (k : A -> list C) (l : list A) :
  (forall x, In x l -> f (g x) = map h (k x)) ->
  flat_map f (map g l) = map h (flat_map k l).
Proof.
  induction l as [|x l IH]; intros H; [reflexivity|].
  cbn [map flat_map]. rewrite map_app, (H x) by now left.
  f_equal. apply IH. intros y Hy. apply H. now right.
Qed.

Lemma anonymized_is_dict fields members :
  is_dict (anonymized fields (JObj members)) = true.
Proof.
  unfold anonymized. rewrite anonymize_dict_obj. apply anonymize_loop_is_dict.
Qed.

Lemma anonymized_members fields members :
  NoDup (dict_keys members) ->
  anonymized fields (JObj members) =
  JObj (map (fun kv => match kv with
                       | (k, x) => (k, member_result fields k x)
                       end) members).
Proof.
  intros Hnd. unfold anonymized.
  now rewrite (anonymize_dict_members fields members [] Hnd).
Qed.

Section Passes.
Variable fields : list string.

Lemma unchanged_without_values : forall v,
  wf_json v = true -> sensitive_values fields v = [] -> value_result fields v = v.
Proof.
  induction v as [| | | |items IH|members IH] using JSON_ind;
    intros Hwf Hnone; try reflexivity.
  - cbn [value_result]. f_equal.
    rewrite sensitive_values_arr in Hnone. apply flat_map_nil in Hnone.
    cbn [wf_json] in Hwf. rewrite forallb_forall in Hwf.
    rewrite Forall_forall in IH, Hnone.
    rewrite <- (map_id items) at 2. apply map_ext_in. intros item Hin.
    specialize (Hnone item Hin). unfold item_values in Hnone.
    destruct item; cbn [is_dict] in *; try reflexivity.
    exact (IH _ Hin (Hwf _ Hin) Hnone).
  - cbn [wf_json] in Hwf. apply andb_true_iff in Hwf. destruct Hwf as [Hk Hwf].
    apply distinctb_NoDup in Hk. rewrite forallb_forall in Hwf.
    cbn [value_result]. rewrite (anonymized_members fields members Hk). f_equal.
    rewrite sensitive_values_obj in Hnone. apply flat_map_nil in Hnone.
    rewrite Forall_forall in IH, Hnone.
    rewrite <- (map_id members) at 2. apply map_ext_in. intros [k x] Hin.
    f_equal. specialize (Hnone _ Hin). unfold member_values in Hnone.
    unfold member_result. cbn [fst snd] in Hnone.
    destruct (in_fields k fields && negb (is_None x)); [discriminate|].
    exact (IH _ Hin (Hwf _ Hin) Hnone).
Qed.

(** X15: a document whose objects are dicts and in which the walk
    finds no value to hash (no sensitive key with a value that is not
    null, at the depths it reaches) is returned equal to itself, and
    the mapping is returned as given. *)
Theorem anonymize_dict_no_change (data : JSON) (mapping : Mapping) :
  wf_json data = true ->
  (is_dict data = true -> sensitive_values fields data = []) ->
  anonymize_dict data mapping fields = (data, mapping).
Proof.
  intros Hwf Hnone. rewrite anonymize_dict_walk.
  destruct data; try reflexivity.
  specialize (Hnone eq_refl). cbn [is_dict]. rewrite Hnone. cbn [fold_left].
  f_equal. exact (unchanged_without_values (JObj members) Hwf Hnone).
Qed.

Lemma member_values_result k x :
  (wf_json x = true ->
   sensitive_values fields (value_result fields x) =
   map (fun o => JStr (digest o)) (sensitive_values fields x)) ->
  wf_json x = true ->
  member_values fields (k, member_result fields k x) =
  map (fun o => JStr (digest o)) (member_values fields (k, x)).
Proof.
  intros IH Hwf. unfold member_values, member_result. cbn [fst snd].
  destruct (in_fields k fields) eqn:Hk; cbn [andb].
  - destruct x; cbn [is_None negb]; try reflexivity.
  - now apply IH.
Qed.

Lemma pass_keeps_shape : forall v,
  wf_json v = true ->
  wf_json (value_result fields v) = true
  /\ sensitive_values fields (value_result fields v) =
     map (fun o => JStr (digest o)) (sensitive_values fields v).
Proof.
  induction v as [| | | |items IH|members IH] using JSON_ind;
    intros Hwf; try (split; reflexivity).
  - cbn [wf_json] in Hwf. rewrite forallb_forall in Hwf.
    rewrite Forall_forall in IH. cbn [value_result wf_json].
    rewrite !sensitive_values_arr. split.
    + apply forallb_forall. intros y Hy. apply in_map_iff in Hy.
      destruct Hy as (item & <- & Hin).
      destruct item; cbn [is_dict]; try (now apply Hwf).
      exact (proj1 (IH _ Hin (Hwf _ Hin))).
    + apply flat_map_map_ext. intros item Hin. unfold item_values.
      destruct item; cbn [is_dict]; try reflexivity.
      rewrite anonymized_is_dict.
      exact (proj2 (IH _ Hin (Hwf _ Hin))).
  - cbn [wf_json] in Hwf. apply andb_true_iff in Hwf. destruct Hwf as [Hk Hwf].
    rewrite forallb_forall in Hwf. rewrite Forall_forall in IH.
    cbn [value_result].
    rewrite (anonymized_members fields members (distinctb_NoDup _ Hk)).
    rewrite !sensitive_values_obj. split.
    + cbn [wf_json]. apply andb_true_iff. split.
      * unfold dict_keys in *. rewrite map_map.
        erewrite map_ext; [exact Hk|]. now intros [k x].
      * apply forallb_forall. intros y Hy. apply in_map_iff in Hy.
        destruct Hy as ([k x] & <- & Hin). unfold member_result.
        destruct (in_fields k fields && negb (is_None x)); [reflexivity|].
        exact (proj1 (IH _ Hin (Hwf _ Hin))).
    + apply flat_map_map_ext. intros [k x] Hin.
      apply member_values_result; [|exact (Hwf _ Hin)].
      intros Hx. exact (proj2 (IH _ Hin Hx)).
Qed.

(** X16: a pass over a document whose objects are dicts returns such a
    document, in which the walk finds, position by position, the
    digests of the values it found in the input; a second pass
    therefore records the digest of every digest, keyed by the digest
    of the digest. *)
Theorem pass_output_holds_digests (data : JSON) (mapping : Mapping) :
  wf_json data = true -> is_dict data = true ->
  let out := fst (anonymize_dict data mapping fields) in
  wf_json out = true
  /\ sensitive_values fields out =
     map (fun o => JStr (digest o)) (sensitive_values fields data)
  /\ forall mapping',
       snd (anonymize_dict out mapping' fields) =
       fold_left remember
         (map (fun o => JStr (digest o)) (sensitive_values fields data)) mapping'.
Proof.
  intros Hwf Hd. cbv zeta. rewrite anonymize_dict_walk. cbn [fst].
  destruct data; try discriminate.
  destruct (pass_keeps_shape (JObj members) Hwf) as [Hwf' Hvals].
  cbn [value_result] in Hwf', Hvals.
  split; [exact Hwf'|]. split; [exact Hvals|].
  intros mapping'. rewrite anonymize_dict_walk. cbn [snd].
  now rewrite anonymized_is_dict, Hvals.
Qed.

End Passes.

Lemma anonymize_dict_no_change_witness :
  wf_json (JObj [("Age", JInt 5); ("LastName", JNull);
                 ("Notes", JArr [JStr "a"; JObj [("Dose", JInt 2)]])]) = true /\
  anonymize_dict (JObj [("Age", JInt 5); ("LastName", JNull);
                        ("Notes", JArr [JStr "a"; JObj [("Dose", JInt 2)]])])
                 [] FIELDS_TO_ANONYMIZE =
  (JObj [("Age", JInt 5); ("LastName", JNull);
         ("Notes", JArr [JStr "a"; JObj [("Dose", JInt 2)]])], []).
Proof.
  split; [reflexivity|].
  apply (anonymize_dict_no_change FIELDS_TO_ANONYMIZE); reflexivity.
Defined.

Lemma pass_output_holds_digests_witness :
  wf_json (JObj record_example) = true /\ is_dict (JObj record_example) = true /\
  sensitive_values FIELDS_TO_ANONYMIZE
    (fst (anonymize_dict (JObj record_example) [] FIELDS_TO_ANONYMIZE)) =
  map (fun o => JStr (digest o))
      (sensitive_values FIELDS_TO_ANONYMIZE (JObj record_example)).
Proof.
  split; [reflexivity|]. split; [reflexivity|].
  exact (proj1 (proj2 (pass_output_holds_digests FIELDS_TO_ANONYMIZE
                         (JObj record_example) [] eq_refl eq_refl))).
Defined.

(** ** The routing of the discovered files *)

Lemma substring_all (s : string) : substring 0 (String.length s) s = s.
Proof. induction s; cbn; congruence. Qed.

Lemma substring_split (k : nat) : forall s,
  (k <= String.length s)%nat ->
  s = substring 0 k s +++ substring k (String.length s - k) s.
Proof.
  induction k as [|k IH]; intros s Hk.
  - rewrite Nat.sub_0_r, substring_all. now destruct s.
  - destruct s as [|c s]; cbn in Hk; [lia|].
    cbn. f_equal. apply IH. lia.
Qed.

Lemma substring_app_r (a b : string) (m : nat) :
  substring (String.length a) m (a +++ b) = substring 0 m b.
Proof. induction a; cbn; [reflexivity|assumption]. Qed.

Lemma ends_with_split (suffix s : string) :
  ends_with suffix s = true ->
  exists a, s = a +++ suffix
            /\ String.length a = (String.length s - String.length suffix)%nat.
Proof.
  unfold ends_with. intros H. apply andb_true_iff in H. destruct H as [Hle Heq].
  apply Nat.leb_le in Hle. apply String.eqb_eq in Heq.
  exists (substring 0 (String.length s - String.length suffix) s).
  assert (Hs := substring_split (String.length s - String.length suffix) s
                  ltac:(lia)).
  replace (String.length s - (String.length s - String.length suffix))%nat
    with (String.length suffix) in Hs by lia.
  rewrite Heq in Hs. split; [exact Hs|].
  apply (f_equal String.length) in Hs. rewrite append_length in Hs. lia.
Qed.

Lemma rfind_dot_app (a ext : string) :
  (forall pos, rfind_dot ext pos = Some pos) ->
  forall pos, rfind_dot (a +++ ext) pos = Some (pos + String.length a)%nat.
Proof.
  intros Hext. induction a as [|c a IH]; intros pos; cbn.
  - now rewrite Hext, Nat.add_0_r.
  - rewrite IH. f_equal. lia.
Qed.

Lemma path_suffix_app (a ext : string) :
  (forall pos, rfind_dot ext pos = Some pos) ->
  (0 < String.length a)%nat -> (2 <= String.length ext)%nat ->
  path_suffix (a +++ ext) = ext.
Proof.
  intros Hext Ha He. unfold path_suffix.
  rewrite (rfind_dot_app a ext Hext 0). cbn [Nat.add].
  rewrite append_length.
  replace (0 <? String.length a)%nat with true
    by (symmetry; apply Nat.ltb_lt; lia).
  replace (String.length a <? String.length a + String.length ext - 1)%nat
    with true by (symmetry; apply Nat.ltb_lt; lia).
  cbn [andb].
  replace (String.length a + String.length ext - String.length a)%nat
    with (String.length ext) by lia.
  now rewrite substring_app_r, substring_all.
Qed.

Lemma fnmatch_star_suffix (prefix ext name : string) :
  (forall pos, rfind_dot ext pos = Some pos) ->
  (0 < String.length prefix)%nat -> (2 <= String.length ext)%nat ->
  fnmatch_star prefix ext name = true ->
  String.prefix prefix name = true /\ path_suffix name = ext.
Proof.
  intros Hext Hp He H. unfold fnmatch_star in H.
  apply andb_true_iff in H. destruct H as [H Hlen].
  apply andb_true_iff in H. destruct H as [Hpre Hend].
  apply Nat.leb_le in Hlen. split; [assumption|].
  destruct (ends_with_split ext name Hend) as (a & -> & Ha).
  apply path_suffix_app; try assumption. lia.
Qed.

Lemma prefix_app_l (p1 p2 f : string) :
  String.prefix (p1 +++ p2) f = true -> String.prefix p1 f = true.
Proof.
  revert f. induction p1 as [|c p1 IH]; intros f.
  - intros _. now destruct f.
  - destruct f as [|c' f]; cbn; [discriminate|].
    destruct (ascii_dec c c'); [apply IH|discriminate].
Qed.

(** X17: every file [main] discovers is a file of the directory and is
    routed by its extension: a name matching data_*.jsonl has the
    suffix .jsonl, a name matching failed_treatments_*.json or
    failed_patients_*.json has the suffix .json; so the step of the
    loop never falls through its two branches for a discovered file. *)
Theorem discovered_files_are_routed (fs : FS) (f : string) :
  In f (discovered fs) ->
  In f (dict_keys fs)
  /\ ((String.prefix "data_" f = true /\ path_suffix f = ".jsonl")
      \/ (String.prefix "failed_" f = true /\ path_suffix f = ".json")).
Proof.
  unfold discovered, glob. rewrite !in_app_iff, !filter_In.
  intros [[Hin H]|[[Hin H]|[Hin H]]]; (split; [exact Hin|]).
  - left. apply fnmatch_star_suffix; try assumption; cbn; try lia.
    now intros pos.
  - right. apply fnmatch_star_suffix in H; cbn; try lia; [|now intros pos].
    destruct H as [Hp Hs]. split; [|exact Hs].
    exact (prefix_app_l "failed_" _ f Hp).
  - right. apply fnmatch_star_suffix in H; cbn; try lia; [|now intros pos].
    destruct H as [Hp Hs]. split; [|exact Hs].
    exact (prefix_app_l "failed_" _ f Hp).
Qed.

Lemma discovered_files_are_routed_witness :
  In "data_systeminfo.jsonl" (discovered sample_fs) /\
  In "data_systeminfo.jsonl" (dict_keys sample_fs) /\
  ((String.prefix "data_" "data_systeminfo.jsonl" = true /\
    path_suffix "data_systeminfo.jsonl" = ".jsonl")
   \/ (String.prefix "failed_" "data_systeminfo.jsonl" = true /\
       path_suffix "data_systeminfo.jsonl" = ".json")).
Proof.
  assert (Hin : In "data_systeminfo.jsonl" (discovered sample_fs))
    by (vm_compute; tauto).
  split; [exact Hin|].
  exact (discovered_files_are_routed sample_fs "data_systeminfo.jsonl" Hin).
Defined.

(** ** Examples for the file processors and the run *)

Lemma process_json_file_rewrites_witness :
  let result := process_json_file (J := ascii_json) "failed_treatments_1.json" []
                  FIELDS_TO_ANONYMIZE sample_fs in
  read_text "failed_treatments_1.json" sample_fs = Some (json_text false true 0 alice) /\
  json_loads (JsonLib := ascii_json) (json_text false true 0 alice) = Some alice /\
  is_dict alice || is_list alice = true /\
  fst (fst result) = Ok true /\
  dict_get "failed_treatments_1.json" (snd (fst result)) =
    Some (json_text true false 0
            (JObj [("FirstName", JStr (sha256_hexdigest "Alice"))])) /\
  dict_get "failed_treatments_1.json.tmp" (snd (fst result)) = None /\
  snd result = [(sha256_hexdigest "Alice", JStr "Alice")].
Proof.
  cbv zeta.
  assert (Hread : read_text "failed_treatments_1.json" sample_fs =
                  Some (json_text false true 0 alice)) by (vm_compute; reflexivity).
  assert (Hparse : json_loads (JsonLib := ascii_json) (json_text false true 0 alice) =
                   Some alice) by (vm_compute; reflexivity).
  split; [exact Hread|]. split; [exact Hparse|]. split; [reflexivity|].
  destruct (process_json_file_rewrites (J := ascii_json) FIELDS_TO_ANONYMIZE
              "failed_treatments_1.json" [] sample_fs _ alice Hread Hparse eq_refl)
    as (H1 & H2 & H3 & _ & H5).
  split; [exact H1|]. split; [|split; [exact H3|]].
  - rewrite H2. vm_compute. reflexivity.
  - rewrite H5. vm_compute. reflexivity.
Defined.

Lemma process_json_file_early_exits_witness :
  let fs := [("failed_patients_2.json", "{oops")] in
  let result := process_json_file (J := ascii_json) "failed_patients_2.json"
                  [(digest (JInt 1), JInt 1)] FIELDS_TO_ANONYMIZE fs in
  (forall text data,
      read_text "failed_patients_2.json" fs = Some text ->
      json_loads (JsonLib := ascii_json) text = Some data ->
      is_dict data || is_list data = false) /\
  read_text "failed_patients_2.json" fs = Some "{oops" /\
  json_loads (JsonLib := ascii_json) "{oops" = None /\
  fst (fst result) = Raise JSONDecodeError /\
  snd (fst result) = fs /\ snd result = [(digest (JInt 1), JInt 1)].
Proof.
  cbv zeta.
  assert (Hread : read_text "failed_patients_2.json"
                    [("failed_patients_2.json", "{oops")] = Some "{oops")
    by (vm_compute; reflexivity).
  assert (Hparse : json_loads (JsonLib := ascii_json) "{oops" = None)
    by (vm_compute; reflexivity).
  assert (Hshape : forall text data,
             read_text "failed_patients_2.json"
               [("failed_patients_2.json", "{oops")] = Some text ->
             json_loads (JsonLib := ascii_json) text = Some data ->
             is_dict data || is_list data = false).
  { intros text data Hr Hp. rewrite Hread in Hr. injection Hr as <-.
    rewrite Hparse in Hp. discriminate Hp. }
  split; [exact Hshape|]. split; [exact Hread|]. split; [exact Hparse|].
  destruct (process_json_file_early_exits (J := ascii_json) FIELDS_TO_ANONYMIZE
              "failed_patients_2.json" [(digest (JInt 1), JInt 1)] _ Hshape)
    as (H1 & H2 & _ & _ & H5 & _).
  split; [exact (H5 _ Hread Hparse)|]. now split.
Defined.

Lemma process_files_stops_at_error_witness :
  let st := mkRun broken_fs [] 0 [] in
  let st1 := snd (process_files (J := ascii_json) FIELDS_TO_ANONYMIZE
                    ["data_1.jsonl"] st) in
  let st2 := snd (process_file (J := ascii_json) FIELDS_TO_ANONYMIZE
                    "data_2.jsonl" st1) in
  let final := process_files (J := ascii_json) FIELDS_TO_ANONYMIZE
                 (["data_1.jsonl"] ++ "data_2.jsonl" :: ["failed_treatments_1.json"]) st in
  process_files (J := ascii_json) FIELDS_TO_ANONYMIZE ["data_1.jsonl"] st = (Ok tt, st1) /\
  process_file (J := ascii_json) FIELDS_TO_ANONYMIZE "data_2.jsonl" st1 =
    (Raise JSONDecodeError, st2) /\
  final = (Raise JSONDecodeError, st2) /\
  dict_get "failed_treatments_1.json" (run_fs (snd final)) =
    Some (json_text false true 0 alice) /\
  dict_get "data_2.jsonl" (run_fs (snd final)) = Some bad_text.
Proof.
  cbv zeta.
  assert (H1 : process_files (J := ascii_json) FIELDS_TO_ANONYMIZE ["data_1.jsonl"]
                 (mkRun broken_fs [] 0 []) =
               (Ok tt, snd (process_files (J := ascii_json) FIELDS_TO_ANONYMIZE
                              ["data_1.jsonl"] (mkRun broken_fs [] 0 []))))
    by (vm_compute; reflexivity).
  assert (H2 : process_file (J := ascii_json) FIELDS_TO_ANONYMIZE "data_2.jsonl"
                 (snd (process_files (J := ascii_json) FIELDS_TO_ANONYMIZE
                         ["data_1.jsonl"] (mkRun broken_fs [] 0 []))) =
               (Raise JSONDecodeError,
                snd (process_file (J := ascii_json) FIELDS_TO_ANONYMIZE "data_2.jsonl"
                       (snd (process_files (J := ascii_json) FIELDS_TO_ANONYMIZE
                               ["data_1.jsonl"] (mkRun broken_fs [] 0 []))))))
    by (vm_compute; reflexivity).
  split; [exact H1|]. split; [exact H2|].
  pose proof (process_files_stops_at_error (J := ascii_json) FIELDS_TO_ANONYMIZE
                ["data_1.jsonl"] ["failed_treatments_1.json"] "data_2.jsonl"
                _ _ _ _ H1 H2) as H.
  split; [exact H|]. rewrite H. split; vm_compute; reflexivity.
Defined.

Lemma main_leaves_other_files_witness :
  ~ In "notes.txt" (discovered broken_fs) /\
  ~ In "notes.txt" (map (fun f => f +++ ".tmp") (discovered broken_fs)) /\
  "notes.txt" <> "anonymization_mapping.json" /\
  dict_get "notes.txt" (run_fs (snd (main (J := ascii_json) broken_fs))) =
  dict_get "notes.txt" broken_fs.
Proof.
  assert (H1 : ~ In "notes.txt" (discovered broken_fs))
    by (vm_compute; intuition discriminate).
  assert (H2 : ~ In "notes.txt" (map (fun f => f +++ ".tmp") (discovered broken_fs)))
    by (vm_compute; intuition discriminate).
  assert (H3 : "notes.txt" <> "anonymization_mapping.json") by discriminate.
  split; [exact H1|]. split; [exact H2|]. split; [exact H3|].
  exact (main_leaves_other_files (J := ascii_json) broken_fs "notes.txt" H1 H2 H3).
Defined.

Lemma json_files_count_no_records_witness :
  Forall (fun f => path_suffix f <> ".jsonl")
    ["failed_treatments_1.json"; "failed_patients_1.json"] /\
  total_records
    (snd (process_files (J := ascii_json) FIELDS_TO_ANONYMIZE
            ["failed_treatments_1.json"; "failed_patients_1.json"]
            (mkRun sample_fs [] 0 []))) = 0%nat.
Proof.
  assert (H : Forall (fun f => path_suffix f <> ".jsonl")
                ["failed_treatments_1.json"; "failed_patients_1.json"])
    by (repeat constructor; vm_compute; discriminate).
  split; [exact H|].
  exact (json_files_count_no_records (J := ascii_json) FIELDS_TO_ANONYMIZE _
           (mkRun sample_fs [] 0 []) H).
Defined.

Lemma main_without_files_witness :
  discovered [("notes.txt", "keep")] = [] /\
  fst (main (J := ascii_json) [("notes.txt", "keep")]) = Ok tt /\
  run_fs (snd (main (J := ascii_json) [("notes.txt", "keep")])) = [("notes.txt", "keep")].
Proof.
  assert (H : discovered [("notes.txt", "keep")] = []) by reflexivity.
  split; [exact H|].
  destruct (main_without_files (J := ascii_json) _ H) as (H1 & H2 & _).
  now split.
Defined.

Section JsonlBlank.
Context {J : JsonLib}.

(** X18: a JSONL file with no line other than blank ones (the empty
    file included) is not left alone: nothing is parsed or recorded and
    the count is 0, but the file is replaced by an empty one. *)
Theorem jsonl_blank_file_emptied (fields : list string) (file_path : string)
  (mapping : Mapping) (fs : FS) (text : string) :
  read_text file_path fs = Some text ->
  filter strip_nonempty (readlines text) = [] ->
  let result := process_jsonl_file file_path mapping fields fs in
  fst (fst result) = Ok 0%nat
  /\ dict_get file_path (snd (fst result)) = Some ""
  /\ snd result = mapping.
Proof.
  intros Hread Hblank result. subst result.
  unfold process_jsonl_file. rewrite Hread.
  rewrite (jsonl_loop_parsed fields _ []) by now rewrite Hblank.
  cbn [fst snd fold_left flat_map List.length]. split; [reflexivity|].
  split; [|reflexivity]. apply os_replace_get.
Qed.

End JsonlBlank.

Lemma jsonl_blank_file_emptied_witness :
  let text := "  " +++ str1 LF +++ str1 TAB +++ str1 LF in
  let fs := [("data_1.jsonl", text)] in
  let result := process_jsonl_file (J := ascii_json) "data_1.jsonl" []
                  FIELDS_TO_ANONYMIZE fs in
  read_text "data_1.jsonl" fs = Some text /\
  filter strip_nonempty (readlines text) = [] /\
  fst (fst result) = Ok 0%nat /\
  dict_get "data_1.jsonl" (snd (fst result)) = Some "" /\
  snd result = [].
Proof.
  cbv zeta.
  assert (Hread : read_text "data_1.jsonl"
                    [("data_1.jsonl", "  " +++ str1 LF +++ str1 TAB +++ str1 LF)] =
                  Some ("  " +++ str1 LF +++ str1 TAB +++ str1 LF))
    by (vm_compute; reflexivity).
  assert (Hblank : filter strip_nonempty
                     (readlines ("  " +++ str1 LF +++ str1 TAB +++ str1 LF)) = [])
    by (vm_compute; reflexivity).
  split; [exact Hread|]. split; [exact Hblank|].
  exact (jsonl_blank_file_emptied (J := ascii_json) FIELDS_TO_ANONYMIZE
           "data_1.jsonl" [] _ _ Hread Hblank).
Defined.

(** ** The mapping only grows at its end *)

Lemma remember_appends mapping value :
  exists added,
    remember mapping value = mapping ++ added /\ (List.length added <= 1)%nat.
Proof.
  unfold remember. destruct (dict_mem (digest value) mapping) eqn:E; cbn [negb].
  - exists []. split; [now rewrite app_nil_r|cbn; lia].
  - exists [(digest value, value)]. split; [|cbn; lia].
    apply dict_set_absent. rewrite <- dict_mem_keys. congruence.
Qed.

Lemma remember_all_appends values : forall mapping,
  exists added,
    fold_left remember values mapping = mapping ++ added
    /\ (List.length added <= List.length values)%nat.
Proof.
  induction values as [|v vs IH]; intros mapping; cbn [fold_left List.length].
  - exists []. split; [now rewrite app_nil_r|cbn; lia].
  - destruct (remember_appends mapping v) as (a1 & H1 & L1).
    destruct (IH (remember mapping v)) as (a2 & H2 & L2).
    exists (a1 ++ a2). rewrite H2, H1, <- app_assoc. split; [reflexivity|].
    rewrite length_app. lia.
Qed.

Section AppendOnly.
Context {J : JsonLib}.

(** X19: the mapping is append-only.  A call of the anonymizer returns
    the mapping it was given followed by new entries, at most one per
    value it hashed; so does the loop over the files of a run.  The
    entries keep the order in which their digests were first met, and
    no entry is removed, moved or changed. *)
Theorem mapping_append_only (fields : list string) (data : JSON) (mapping : Mapping) :
  (exists added,
      snd (anonymize_dict data mapping fields) = mapping ++ added
      /\ (List.length added <= List.length (sensitive_values fields data))%nat)
  /\ (forall all_files st,
        exists added,
          run_mapping (snd (process_files fields all_files st)) =
          run_mapping st ++ added).
Proof.
  split.
  - rewrite anonymize_dict_walk. cbn [snd].
    destruct (is_dict data).
    + apply remember_all_appends.
    + exists []. split; [cbn [fold_left]; now rewrite app_nil_r|cbn [List.length]; lia].
  - intros all_files st.
    destruct (process_files_grows fields all_files st) as [values Hv].
    rewrite Hv. destruct (remember_all_appends values (run_mapping st))
      as (added & Ha & _).
    now exists added.
Qed.

End AppendOnly.
